(** * Statistics pipeline: distribution profiler and method selector

    A shallow embedding of [eda.py] (class [EDA_Diagnosis]) and
    [method_selector.py] (class [MethodSelector]).

    Python floats are kept abstract up to their order: a float is NaN, an
    infinity, or a finite value carried as a rational.  Only comparisons are
    computed on them; every numerical routine of numpy, pandas, scipy and
    statsmodels is a collaborator taken as a parameter.  Python exceptions
    are a [result] monad. *)

From Stdlib Require Import List String Bool Arith ZArith QArith Lia.
From Stdlib Require Import Decimal DecimalString Lqa.
Import ListNotations.
Local Open Scope string_scope.
Local Open Scope nat_scope.

(* ===================================================================== *)
(** ** Python floats, up to comparison *)
(* ===================================================================== *)

Module PyFloat.

Inductive pyfloat : Type :=
| NaN
| NegInf
| PosInf
| Fin (q : Q).

Definition isnan (x : pyfloat) : bool :=
  match x with NaN => true | _ => false end.

(** [numpy.isfinite]. *)
Definition isfinite (x : pyfloat) : bool :=
  match x with Fin _ => true | _ => false end.

Definition Qlt_bool (a b : Q) : bool := negb (Qle_bool b a).

(** [x < y]: every comparison with NaN is false. *)
Definition ltb (x y : pyfloat) : bool :=
  match x, y with
  | NaN, _ | _, NaN => false
  | _, NegInf => false
  | NegInf, _ => true
  | PosInf, _ => false
  | Fin _, PosInf => true
  | Fin a, Fin b => Qlt_bool a b
  end.

(** [x > y]. *)
Definition gtb (x y : pyfloat) : bool := ltb y x.

(** [x == y]. *)
Definition eqb (x y : pyfloat) : bool :=
  match x, y with
  | NegInf, NegInf | PosInf, PosInf => true
  | Fin a, Fin b => Qeq_bool a b
  | _, _ => false
  end.

(** The literals of the sources.  [0.5] and [1] are exact in binary64;
    [0.05] is the double nearest to one twentieth. *)
Definition f_1 : pyfloat := Fin 1.
Definition f_0_5 : pyfloat := Fin (1 # 2).
Definition f_m1 : pyfloat := Fin (-1).
Definition f_m0_5 : pyfloat := Fin (-1 # 2).
Definition f_0 : pyfloat := Fin 0.
Definition f_3 : pyfloat := Fin 3.
Definition q_0_05 : Q := 3602879701896397 # 72057594037927936.
Definition f_0_05 : pyfloat := Fin q_0_05.

End PyFloat.
Import PyFloat.

(* ===================================================================== *)
(** ** Exceptions *)
(* ===================================================================== *)

Module Py.

(** A raised exception: its class name and its message. *)
Record exn : Type := Exception { exn_class : string; exn_msg : string }.

Definition ValueError (msg : string) : exn := Exception "ValueError" msg.
Definition KeyError (key : string) : exn := Exception "KeyError" key.

Inductive result (A : Type) : Type :=
| Ok (a : A)
| Raise (e : exn).
Arguments Ok {A} a.
Arguments Raise {A} e.

Definition bind {A B : Type} (m : result A) (k : A -> result B) : result B :=
  match m with
  | Ok a => k a
  | Raise e => Raise e
  end.

Fixpoint mapM {A B : Type} (f : A -> result B) (l : list A) : result (list B) :=
  match l with
  | [] => Ok []
  | a :: l' =>
      bind (f a) (fun b => bind (mapM f l') (fun bs => Ok (b :: bs)))
  end.

(** Truthiness of a string: the empty string is falsy. *)
Definition truthy (s : string) : bool :=
  match s with EmptyString => false | _ => true end.

End Py.
Import Py.

Declare Scope py_scope.
Delimit Scope py_scope with py.
Notation "x <- m ;; k" := (bind m (fun x => k))
  (at level 61, m at next level, right associativity) : py_scope.
Notation "' p <- m ;; k" := (bind m (fun p => k))
  (at level 61, p pattern, m at next level, right associativity) : py_scope.
Local Open Scope py_scope.

(* ===================================================================== *)
(** ** A pandas DataFrame, as far as the selector reads it *)
(* ===================================================================== *)

Module Frame.

Inductive cell : Type :=
| CNum (x : pyfloat)
| CStr (s : string)
| CNone.

Definition Series : Type := list cell.

(** Columns by name.  The names of a frame are meant distinct: on a
    repeated name [getitem] finds the first column, where pandas hands back
    a sub-frame; a fact that lists the exceptions of a method therefore
    carries the distinctness of the names as a hypothesis. *)
Definition DataFrame : Type := list (string * Series).

(** [pandas.isna] on one entry. *)
Definition isna (c : cell) : bool :=
  match c with
  | CNum x => isnan x
  | CStr _ => false
  | CNone => true
  end.

(** Elementwise [==]; a missing entry equals nothing. *)
Definition cell_eq (a b : cell) : bool :=
  match a, b with
  | CNum x, CNum y => PyFloat.eqb x y
  | CStr s, CStr t => String.eqb s t
  | _, _ => false
  end.

(** Equality of hash-table keys: as [cell_eq], but NaN is one key and
    [None] is one key. *)
Definition same_key (a b : cell) : bool :=
  match a, b with
  | CNone, CNone => true
  | CNum NaN, CNum NaN => true
  | _, _ => cell_eq a b
  end.

(** [df[col]]. *)
Fixpoint getitem (df : DataFrame) (col : string) : result Series :=
  match df with
  | [] => Raise (KeyError col)
  | (name, s) :: df' => if String.eqb name col then Ok s else getitem df' col
  end.

(** [Series.dropna()]. *)
Definition dropna (s : Series) : Series :=
  filter (fun c => negb (isna c)) s.

(** [Series.unique()]: distinct entries in order of first appearance;
    a missing entry is kept as an entry of its own. *)
Fixpoint unique (s : Series) : Series :=
  match s with
  | [] => []
  | c :: s' => c :: filter (fun d => negb (same_key c d)) (unique s')
  end.

(** [Series.nunique()]: the number of distinct entries that are not
    missing. *)
Definition nunique (s : Series) : nat := List.length (unique (dropna s)).

(** [s == g], elementwise. *)
Definition eq_mask (s : Series) (g : cell) : list bool :=
  map (fun c => cell_eq c g) s.

Fixpoint select {A : Type} (mask : list bool) (l : list A) : list A :=
  match mask, l with
  | b :: mask', a :: l' => if b then a :: select mask' l' else select mask' l'
  | _, _ => []
  end.

(** [df[mask]]: the rows where the mask holds. *)
Definition mask_rows (df : DataFrame) (mask : list bool) : DataFrame :=
  map (fun '(name, s) => (name, select mask s)) df.

End Frame.
Import Frame.

(* ===================================================================== *)
(** ** method_selector.py *)
(* ===================================================================== *)

Module Selector.

(** What [MethodSelector] may hold as [data]: a DataFrame, or a Series or
    array for one-dimensional checks. *)
Inductive pydata : Type :=
| IsDataFrame (df : DataFrame)
| NotDataFrame (xs : list pyfloat).

Record MethodSelector : Type := {
  data : pydata;
  group_col : option string;
  id_col : option string;
  paired : bool
}.

(** [MethodSelector.__init__(data, group_col=None, id_col=None, paired=False)]. *)
Definition init (d : pydata) (g i : option string) (p : bool) : MethodSelector :=
  {| data := d; group_col := g; id_col := i; paired := p |}.

(** The dictionary returned by [check_homogeneity]. *)
Record HomogeneityVerdict : Type := {
  Levene_p : option pyfloat;
  Homogeneity : option bool
}.

Definition null_verdict : HomogeneityVerdict :=
  {| Levene_p := None; Homogeneity := None |}.

Section WithLevene.

(** [scipy.stats.levene] on the samples: statistic and p-value, or an
    exception. *)
Variable levene : list Series -> result (pyfloat * pyfloat).

Definition check_homogeneity (self : MethodSelector) (value_col : string)
  : result HomogeneityVerdict :=
  match data self, group_col self with
  | IsDataFrame df, Some gc =>
      col <- getitem df gc ;;
      let groups := unique col in
      if List.length groups <? 2 then Ok null_verdict
      else
        group_data <-
          mapM (fun g =>
                  keys <- getitem df gc ;;
                  vals <- getitem (mask_rows df (eq_mask keys g)) value_col ;;
                  Ok (dropna vals))
               groups ;;
        ' (stat, p) <- levene group_data ;;
        Ok {| Levene_p := Some p; Homogeneity := Some (gtb p f_0_05) |}
  | _, _ => Ok null_verdict
  end.

End WithLevene.

(** Lines 74-76: the group count of the independent-groups branches. *)
Definition num_groups (self : MethodSelector) : result nat :=
  match data self, group_col self with
  | IsDataFrame df, Some gc =>
      if truthy gc then
        col <- getitem df gc ;;
        Ok (nunique col)
      else Ok 1
  | _, _ => Ok 1
  end.

Definition recommend_method (self : MethodSelector)
    (normality_check : bool) (homogeneity_check : option bool)
  : result (string * string) :=
  let advice := "No recommendation." in
  let method := "Unknown" in
  let is_normal := normality_check in
  let is_homogeneous :=
    match homogeneity_check with Some h => h | None => true end in
  match id_col self with
  | Some _ =>
      let advice := "Data has hierarchical structure (ID column detected)." in
      if is_normal then
        Ok ("LMM", advice ++ " Recommend Linear Mixed Model (LMM).")
      else
        Ok ("GLMM_or_LMM",
            advice ++ " Data is non-normal. Recommend Generalized Linear Mixed Model (GLMM) or Transformation + LMM.")
  | None =>
      if paired self then
        if is_normal then Ok ("Paired T-test", "Data is Normal and Paired.")
        else Ok ("Wilcoxon Signed-Rank", "Data is Non-Normal and Paired.")
      else
        n <- num_groups self ;;
        if n =? 2 then
          if is_normal && is_homogeneous then
            Ok ("Independent T-test", "Normality and Homogeneity assumptions met.")
          else if is_normal && negb is_homogeneous then
            Ok ("Welch's T-test", "Normality met, but Variance is unequal.")
          else
            Ok ("Mann-Whitney U", "Normality assumption violated.")
        else if 2 <? n then
          if is_normal && is_homogeneous then
            Ok ("One-way ANOVA", "Normality and Homogeneity met.")
          else if is_normal && negb is_homogeneous then
            Ok ("Welch ANOVA", "Normality met, Variance unequal.")
          else
            Ok ("Kruskal-Wallis", "Normality violated.")
        else
          if is_normal then Ok ("One-sample T-test", advice)
          else Ok ("One-sample Wilcoxon", advice)
  end.

End Selector.

(* ===================================================================== *)
(** ** eda.py *)
(* ===================================================================== *)

(** The numerical collaborators of the profiler: pandas reductions, float
    arithmetic, scipy and statsmodels tests, the density estimator, the
    plotting layer.  The profiler only routes values between them. *)
Class StatsLib : Type := {
  mean : list pyfloat -> pyfloat;
  std : list pyfloat -> pyfloat;
  skew : list pyfloat -> pyfloat;
  kurtosis : list pyfloat -> pyfloat;
  series_min : list pyfloat -> pyfloat;
  series_max : list pyfloat -> pyfloat;
  quantile : list pyfloat -> pyfloat -> pyfloat;
  fadd : pyfloat -> pyfloat -> pyfloat;
  fsub : pyfloat -> pyfloat -> pyfloat;
  fmul : pyfloat -> pyfloat -> pyfloat;
  fabs : pyfloat -> pyfloat;
  zscore : list pyfloat -> result (list pyfloat);
  shapiro : list pyfloat -> result (pyfloat * pyfloat);
  lilliefors : list pyfloat -> result (pyfloat * pyfloat);
  jarque_bera : list pyfloat -> result (pyfloat * pyfloat);
  gaussian_kde : list pyfloat -> result (list pyfloat -> list pyfloat);
  linspace : pyfloat -> pyfloat -> nat -> list pyfloat;
  find_peaks : list pyfloat -> list nat;
  Figure : Type;
  render : list pyfloat -> string -> Figure
}.

Module EDA.

(** What a caller may pass to the constructor. *)
Inductive pyobject : Type :=
| PdSeries (name : option string) (values : list pyfloat)
| NdArray (values : list pyfloat)
| PyList (values : list pyfloat)
| Other.

Record EDA_Diagnosis : Type := {
  data : list pyfloat;
  name : string;
  clean_data : list pyfloat
}.

(** [Series.dropna()] on a float Series: NaN is the missing value;
    infinities are ordinary entries. *)
Fixpoint dropna (s : list pyfloat) : list pyfloat :=
  match s with
  | [] => []
  | x :: s' => if isnan x then dropna s' else x :: dropna s'
  end.

(** [EDA_Diagnosis.__init__(data)]. *)
Definition init (d : pyobject) : result EDA_Diagnosis :=
  match d with
  | PdSeries nm values =>
      let nm' := match nm with
                 | Some s => if truthy s then s else "Data"
                 | None => "Data"
                 end in
      Ok {| data := values; name := nm'; clean_data := dropna values |}
  | NdArray values | PyList values =>
      Ok {| data := values; name := "Data"; clean_data := dropna values |}
  | Other =>
      Raise (ValueError "Input must be a pandas Series, numpy array, or list.")
  end.

(** The dictionary returned by [descriptive_stats]. *)
Record Moments : Type := {
  Mean : pyfloat;
  Std : pyfloat;
  Skewness : pyfloat;
  Kurtosis : pyfloat;
  Skew_Desc : string;
  Kurt_Desc : string
}.

(** The dictionary returned by [check_distribution]. *)
Record DistributionReport : Type := {
  Shapiro_Wilk_p : pyfloat;
  Lilliefors_p : pyfloat;
  Jarque_Bera_p : pyfloat;
  Is_Normal_Assumption : bool;
  Modality : string;
  Num_Peaks : nat;
  Advice : string
}.

Definition str_of_nat (n : nat) : string :=
  NilEmpty.string_of_uint (Nat.to_uint n).

Section Profiler.

Context {L : StatsLib}.

Definition descriptive_stats (self : EDA_Diagnosis) : Moments :=
  let mean_val := mean (clean_data self) in
  let std_val := std (clean_data self) in
  let skew_val := skew (clean_data self) in
  let kurt_val := kurtosis (clean_data self) in
  let skew_desc :=
    if gtb skew_val f_1 then "Highly Positively Skewed"
    else if gtb skew_val f_0_5 then "Moderately Positively Skewed"
    else if ltb skew_val f_m1 then "Highly Negatively Skewed"
    else if ltb skew_val f_m0_5 then "Moderately Negatively Skewed"
    else "Symmetric" in
  let kurt_desc :=
    if gtb kurt_val f_1 then "Leptokurtic (Heavy tails/Peaked)"
    else if ltb kurt_val f_m1 then "Platykurtic (Light tails/Flat)"
    else "Mesokurtic (Normal-like)" in
  {| Mean := mean_val; Std := std_val;
     Skewness := skew_val; Kurtosis := kurt_val;
     Skew_Desc := skew_desc; Kurt_Desc := kurt_desc |}.

Definition visualize (self : EDA_Diagnosis) : Figure :=
  render (clean_data self) (name self).

(** [check_outliers(method='iqr', threshold=1.5)]. *)
Definition check_outliers (self : EDA_Diagnosis) (method : string)
    (threshold : pyfloat) : result (list pyfloat) :=
  if String.eqb method "iqr" then
    let Q1 := quantile (clean_data self) (Fin (1 # 4)) in
    let Q3 := quantile (clean_data self) (Fin (3 # 4)) in
    let IQR := fsub Q3 Q1 in
    let lower_bound := fsub Q1 (fmul threshold IQR) in
    let upper_bound := fadd Q3 (fmul threshold IQR) in
    Ok (filter (fun x => ltb x lower_bound || gtb x upper_bound)
               (clean_data self))
  else if String.eqb method "zscore" then
    zs <- zscore (clean_data self) ;;
    let z_scores := map fabs zs in
    Ok (select (map (fun z => gtb z f_3) z_scores) (clean_data self))
  else Raise (ValueError "Method must be 'iqr' or 'zscore'").

Definition check_multimodality (self : EDA_Diagnosis) : result (nat * string) :=
  kde <- gaussian_kde (clean_data self) ;;
  let x_range :=
    linspace (series_min (clean_data self)) (series_max (clean_data self)) 1000 in
  let kde_values := kde x_range in
  let peaks := find_peaks kde_values in
  let num_peaks := List.length peaks in
  let modality :=
    if num_peaks =? 2 then "Bimodal"
    else if 2 <? num_peaks then "Multimodal"
    else "Unimodal" in
  Ok (num_peaks, modality).

(** [check_distribution]: the warnings of its own [warnings.warn] call, and
    the outcome.  What scipy and statsmodels warn about inside their tests
    is theirs and is not recorded here. *)
Definition check_distribution (self : EDA_Diagnosis)
  : list string * result DistributionReport :=
  let n := List.length (clean_data self) in
  match shapiro (clean_data self) with
  | Raise e => ([], Raise e)
  | Ok (shapiro_stat, shapiro_p) =>
      let warned :=
        if n <? 5000 then []
        else ["Sample size > 5000, Shapiro-Wilk might be too sensitive."] in
      (warned,
        ' (ks_stat, ks_p) <- lilliefors (clean_data self) ;;
        ' (jb_stat, jb_p) <- jarque_bera (clean_data self) ;;
        ' (num_peaks, modality) <- check_multimodality self ;;
        let is_normal := gtb shapiro_p f_0_05 in
        let advice :=
          if negb is_normal then
            "Data is NOT Normal. "
            ++ (if negb (String.eqb modality "Unimodal") then
                  "Data appears " ++ modality ++ " (" ++ str_of_nat num_peaks
                  ++ " peaks). Consider mixture models or splitting data. "
                else "")
            ++ (if gtb (skew (clean_data self)) f_1 then
                  if gtb (series_min (clean_data self)) f_0 then
                    "Positive Skew: Consider Log or Box-Cox Transform."
                  else
                    "Positive Skew: Consider Square Root (if >=0) or Non-parametric tests."
                else if ltb (skew (clean_data self)) f_m1 then
                  "Negative Skew: Consider Reflect & Log or Non-parametric tests."
                else "Consider Non-parametric tests.")
          else "Data appears Normal. Proceed with Parametric Tests." in
        Ok {| Shapiro_Wilk_p := shapiro_p;
              Lilliefors_p := ks_p;
              Jarque_Bera_p := jb_p;
              Is_Normal_Assumption := is_normal;
              Modality := modality;
              Num_Peaks := num_peaks;
              Advice := advice |})
  end.

End Profiler.

End EDA.

(* ===================================================================== *)
(** ** inference.py *)
(* ===================================================================== *)

(** The scipy tests that [Inference] runs: statistic and p-value, or an
    exception.  [ttest_ind] takes the [equal_var] flag. *)
Class TestLib : Type := {
  ttest_rel : Series -> Series -> result (pyfloat * pyfloat);
  ttest_ind : Series -> Series -> bool -> result (pyfloat * pyfloat);
  mannwhitneyu : Series -> Series -> result (pyfloat * pyfloat)
}.

Module Inference.

(** The constructor's argument: a DataFrame, or a dict of arrays. *)
Inductive pyinput : Type :=
| FrameInput (df : DataFrame)
| DictInput (d : list (string * Series)).

Record Inference : Type := { data : DataFrame }.

(** Whether all the arrays of a dict have one length. *)
Definition same_lengths (d : list (string * Series)) : bool :=
  match d with
  | [] => true
  | (_, s) :: d' =>
      forallb (fun '(_, t) => List.length t =? List.length s) d'
  end.

(** [Inference.__init__(data)]; [pd.DataFrame] refuses arrays of unequal
    lengths. *)
Definition init (d : pyinput) : result Inference :=
  match d with
  | FrameInput df => Ok {| data := df |}
  | DictInput cols =>
      if same_lengths cols then Ok {| data := cols |}
      else Raise (ValueError "All arrays must be of the same length")
  end.

(** The dictionary returned by [run_ttest]. *)
Record TTestResult : Type := {
  Test : string;
  Statistic : pyfloat;
  p_value : pyfloat;
  dof : Z
}.

(** The dictionary returned by [run_mann_whitney]. *)
Record RankTestResult : Type := {
  RTest : string;
  RStatistic : pyfloat;
  Rp_value : pyfloat
}.

(** [df[df[group_col] == g][value_col].dropna()]. *)
Definition group_sample (df : DataFrame) (group_col value_col : string)
    (g : cell) : result Series :=
  keys <- getitem df group_col ;;
  vals <- getitem (mask_rows df (eq_mask keys g)) value_col ;;
  Ok (dropna vals).

Section Tests.

Context {T : TestLib}.

(** [run_ttest(value_col, group_col, paired=False, equal_var=True)]. *)
Definition run_ttest (self : Inference) (value_col group_col : string)
    (paired equal_var : bool) : result TTestResult :=
  col <- getitem (data self) group_col ;;
  let groups := unique col in
  if negb (List.length groups =? 2) then
    Raise (ValueError "T-test requires exactly 2 groups.")
  else
    match groups with
    | first :: second :: _ =>
        g1 <- group_sample (data self) group_col value_col first ;;
        g2 <- group_sample (data self) group_col value_col second ;;
        ' (test_name, (stat, p)) <-
          (if paired then
             r <- ttest_rel g1 g2 ;; Ok ("Paired T-test", r)
           else
             r <- ttest_ind g1 g2 equal_var ;;
             Ok (if equal_var then "Independent T-test" else "Welch's T-test", r)) ;;
        Ok {| Test := test_name;
              Statistic := stat;
              p_value := p;
              dof := (Z.of_nat (List.length g1) + Z.of_nat (List.length g2) - 2)%Z |}
    | _ => Raise (Exception "IndexError" "index out of bounds")
    end.

(** [run_mann_whitney(value_col, group_col)]. *)
Definition run_mann_whitney (self : Inference) (value_col group_col : string)
  : result RankTestResult :=
  col <- getitem (data self) group_col ;;
  let groups := unique col in
  if negb (List.length groups =? 2) then
    Raise (ValueError "Mann-Whitney requires 2 groups.")
  else
    match groups with
    | first :: second :: _ =>
        g1 <- group_sample (data self) group_col value_col first ;;
        g2 <- group_sample (data self) group_col value_col second ;;
        ' (stat, p) <- mannwhitneyu g1 g2 ;;
        Ok {| RTest := "Mann-Whitney U"; RStatistic := stat; Rp_value := p |}
    | _ => Raise (Exception "IndexError" "index out of bounds")
    end.

End Tests.

End Inference.

(* ===================================================================== *)
(** ** Predicates of the specification *)
(* ===================================================================== *)

Module Spec.

(** The distinct values of a sample, in order of first appearance. *)
Fixpoint distinct (xs : list pyfloat) : list pyfloat :=
  match xs with
  | [] => []
  | x :: xs' => x :: filter (fun y => negb (PyFloat.eqb x y)) (distinct xs')
  end.

(** A degenerate sample: fewer than two distinct values.  A sample of zero
    variance has one distinct value. *)
Definition degenerate (xs : list pyfloat) : bool :=
  List.length (distinct xs) <? 2.

(** The specification's clean sample: the entries that are finite. *)
Definition finite_entries (xs : list pyfloat) : list pyfloat :=
  filter isfinite xs.

(** The entries that are not NaN. *)
Definition present_entries (xs : list pyfloat) : list pyfloat :=
  filter (fun x => negb (isnan x)) xs.

(** The sequence a constructor argument carries, when it carries one. *)
Definition values_of (d : EDA.pyobject) : option (list pyfloat) :=
  match d with
  | EDA.PdSeries _ values | EDA.NdArray values | EDA.PyList values => Some values
  | EDA.Other => None
  end.

(** The class of the exception an outcome raised, if it raised one. *)
Definition raised_class {A : Type} (r : result A) : option string :=
  match r with
  | Ok _ => None
  | Raise e => Some (exn_class e)
  end.

End Spec.

(* ===================================================================== *)
(** ** Concrete inputs used by the examples *)
(* ===================================================================== *)

Module Sample.

(** Two groups of reaction times, as in the pipeline test. *)
Definition two_groups : DataFrame :=
  [ ("RT", [CNum (Fin 300); CNum (Fin 310); CNum (Fin 320); CNum (Fin 335)]);
    ("Group", [CStr "Control"; CStr "Control"; CStr "Treatment"; CStr "Treatment"]) ].

Definition three_groups : DataFrame :=
  [ ("RT", [CNum (Fin 1); CNum (Fin 2); CNum (Fin 3)]);
    ("Group", [CStr "A"; CStr "B"; CStr "C"]) ].

Definition one_group : DataFrame :=
  [ ("RT", [CNum (Fin 1); CNum (Fin 2); CNum (Fin 3)]);
    ("Group", [CStr "A"; CStr "A"; CStr "A"]) ].

(** One label, and one row whose label is missing. *)
Definition one_group_and_missing : DataFrame :=
  [ ("RT", [CNum (Fin 1); CNum (Fin 2); CNum (Fin 3)]);
    ("Group", [CStr "A"; CNone; CStr "A"]) ].

(** A Levene routine that fails whenever it is reached. *)
Definition levene_unreached (_ : list Series) : result (pyfloat * pyfloat) :=
  Raise (Exception "AssertionError" "levene was called").

(** A Levene routine that answers with a fixed p-value. *)
Definition levene_const (p : pyfloat) (_ : list Series)
  : result (pyfloat * pyfloat) :=
  Ok (f_0, p).

(** A density estimator that refuses a degenerate sample the way
    [scipy.stats.gaussian_kde] does: a ValueError for fewer than two
    entries, a LinAlgError for a singular covariance. *)
Definition kde_double (xs : list pyfloat)
  : result (list pyfloat -> list pyfloat) :=
  match xs with
  | [] | [_] => Raise (ValueError "`dataset` input should have multiple elements.")
  | x :: xs' =>
      if forallb (PyFloat.eqb x) xs' then
        Raise (Exception "LinAlgError" "singular data covariance matrix")
      else Ok (fun grid => map (fun _ => f_1) grid)
  end.

(** A test double for the numerical collaborators: it answers with the
    given skewness, kurtosis and p-values. *)
Definition double (sk ku shapiro_p ks_p jb_p : pyfloat) : StatsLib := {|
  mean := fun _ => f_0;
  std := fun _ => f_1;
  skew := fun _ => sk;
  kurtosis := fun _ => ku;
  series_min := fun xs => hd NaN xs;
  series_max := fun xs => last xs NaN;
  quantile := fun xs _ => hd NaN xs;
  fadd := fun x _ => x;
  fsub := fun x _ => x;
  fmul := fun x _ => x;
  fabs := fun x => x;
  zscore := fun xs => Ok xs;
  shapiro := fun _ => Ok (f_1, shapiro_p);
  lilliefors := fun _ => Ok (f_0, ks_p);
  jarque_bera := fun _ => Ok (f_0, jb_p);
  gaussian_kde := kde_double;
  linspace := fun a b n => repeat a n;
  find_peaks := fun _ => [500];
  Figure := unit;
  render := fun _ _ => tt
|}.

(** Collaborators for a moderately right-skewed, peaked sample that passes
    Shapiro-Wilk while the two other tests reject. *)
Definition lib : StatsLib :=
  double (Fin (3 # 4)) (Fin 2) (Fin (1 # 10)) (Fin (1 # 1000)) (Fin (1 # 1000)).

(** Constructor arguments and the profilers they give. *)
Definition constant_input : EDA.pyobject :=
  EDA.PyList [Fin 5; NaN; Fin 5; Fin 5].

Definition constant_profile : EDA.EDA_Diagnosis :=
  {| EDA.data := [Fin 5; NaN; Fin 5; Fin 5];
     EDA.name := "Data";
     EDA.clean_data := [Fin 5; Fin 5; Fin 5] |}.

Definition spread_input : EDA.pyobject :=
  EDA.PdSeries (Some "RT") [Fin 1; NaN; Fin 2; Fin 4].

Definition spread_profile : EDA.EDA_Diagnosis :=
  {| EDA.data := [Fin 1; NaN; Fin 2; Fin 4];
     EDA.name := "RT";
     EDA.clean_data := [Fin 1; Fin 2; Fin 4] |}.

Definition infinite_input : EDA.pyobject :=
  EDA.PyList [Fin 1; PosInf; NaN; NegInf].

End Sample.

(* ===================================================================== *)
(** ** The method selector *)
(* ===================================================================== *)

Section SelectorFacts.

Import Selector.

Example recommend_ideal_case :
  recommend_method (init (IsDataFrame Sample.two_groups) (Some "Group") None false)
                   true (Some true)
  = Ok ("Independent T-test", "Normality and Homogeneity assumptions met.").
Proof. reflexivity. Qed.

Example recommend_three_groups_welch :
  recommend_method (init (IsDataFrame Sample.three_groups) (Some "Group") None false)
                   true (Some false)
  = Ok ("Welch ANOVA", "Normality met, Variance unequal.").
Proof. reflexivity. Qed.

Example recommend_missing_column :
  recommend_method (init (IsDataFrame Sample.two_groups) (Some "Arm") None false)
                   true None
  = Raise (KeyError "Arm").
Proof. reflexivity. Qed.

Example homogeneity_two_groups :
  check_homogeneity (Sample.levene_const (Fin (1 # 2)))
    (init (IsDataFrame Sample.two_groups) (Some "Group") None false) "RT"
  = Ok {| Levene_p := Some (Fin (1 # 2)); Homogeneity := Some true |}.
Proof. reflexivity. Qed.

(** [unique] counts a missing label as an entry, [nunique] does not. *)
Example unique_counts_missing :
  (col <- getitem Sample.one_group_and_missing "Group" ;;
   Ok (List.length (unique col), nunique col)) = Ok (2, 1).
Proof. reflexivity. Qed.

(** The homogeneity default of line 49 never distinguishes a verdict that
    was not computed from a positive one. *)
Lemma recommend_method_default_homogeneity (self : MethodSelector) (n : bool) :
  recommend_method self n None = recommend_method self n (Some true).
Proof. reflexivity. Qed.

(** Whenever the group count can be read, a recommendation is returned. *)
Lemma recommend_method_returns (self : MethodSelector) (n : bool)
    (h : option bool) (k : nat) :
  num_groups self = Ok k ->
  exists method advice, recommend_method self n h = Ok (method, advice).
Proof.
  intros Hk. unfold recommend_method. rewrite Hk. cbn [bind].
  destruct (id_col self), (paired self), n, h as [[|]|],
    (k =? 2), (2 <? k); cbn; eauto.
Qed.

(** The methods form a closed set. *)
Lemma recommend_method_closed_set (self : MethodSelector) (n : bool)
    (h : option bool) (method advice : string) :
  recommend_method self n h = Ok (method, advice) ->
  In method
     ["LMM"; "GLMM_or_LMM"; "Paired T-test"; "Wilcoxon Signed-Rank";
      "Independent T-test"; "Welch's T-test"; "Mann-Whitney U";
      "One-way ANOVA"; "Welch ANOVA"; "Kruskal-Wallis";
      "One-sample T-test"; "One-sample Wilcoxon"].
Proof.
  unfold recommend_method.
  destruct (id_col self), (paired self), (num_groups self) as [k | e],
    n, h as [[|]|]; cbn [bind];
    try destruct (k =? 2); try destruct (2 <? k); cbn [andb negb];
    intros H; try discriminate; injection H as <- _; cbn; tauto.
Qed.

(** Without a DataFrame or without a grouping column the count is one. *)
Lemma num_groups_ungrouped (self : MethodSelector) :
  (exists xs, data self = NotDataFrame xs) \/ group_col self = None ->
  num_groups self = Ok 1.
Proof.
  unfold num_groups. intros [[xs Hx] | Hg].
  - rewrite Hx. reflexivity.
  - rewrite Hg. destruct (data self); reflexivity.
Qed.

(** C1: when a subject identifier is present, the selector answers LMM for
    a normal sample and GLMM_or_LMM otherwise, whatever the pairing flag,
    the homogeneity verdict, the data and the grouping column are. *)
Theorem recommend_method_hierarchical_first
    (self : MethodSelector) (n : bool) (h : option bool) (i : string) :
  id_col self = Some i ->
  recommend_method self n h =
    if n then
      Ok ("LMM",
          "Data has hierarchical structure (ID column detected). Recommend Linear Mixed Model (LMM).")
    else
      Ok ("GLMM_or_LMM",
          "Data has hierarchical structure (ID column detected). Data is non-normal. Recommend Generalized Linear Mixed Model (GLMM) or Transformation + LMM.").
Proof.
  intros Hid. unfold recommend_method. rewrite Hid.
  destruct n; reflexivity.
Qed.

Lemma recommend_method_hierarchical_first_witness :
  id_col (init (IsDataFrame Sample.two_groups) (Some "Group") (Some "SubjectID") true)
    = Some "SubjectID"
  /\ recommend_method
       (init (IsDataFrame Sample.two_groups) (Some "Group") (Some "SubjectID") true)
       false (Some false)
     = Ok ("GLMM_or_LMM",
           "Data has hierarchical structure (ID column detected). Data is non-normal. Recommend Generalized Linear Mixed Model (GLMM) or Transformation + LMM.").
Proof.
  split; [reflexivity |].
  apply (recommend_method_hierarchical_first
           (init (IsDataFrame Sample.two_groups) (Some "Group") (Some "SubjectID") true)
           false (Some false) "SubjectID").
  reflexivity.
Defined.

(** C2: with no subject identifier and no pairing, a homogeneity verdict of
    None gives the same method and the same rationale as a verdict of True,
    for every normality value, every data object and every grouping
    column. *)
Theorem recommend_method_null_homogeneity_as_true
    (self : MethodSelector) (n : bool) :
  id_col self = None ->
  paired self = false ->
  recommend_method self n None = recommend_method self n (Some true).
Proof.
  intros _ _. apply recommend_method_default_homogeneity.
Qed.

Lemma recommend_method_null_homogeneity_as_true_witness :
  recommend_method (init (IsDataFrame Sample.three_groups) (Some "Group") None false)
                   true None
  = recommend_method (init (IsDataFrame Sample.three_groups) (Some "Group") None false)
                     true (Some true).
Proof.
  apply (recommend_method_null_homogeneity_as_true
           (init (IsDataFrame Sample.three_groups) (Some "Group") None false) true);
    reflexivity.
Defined.

(** C3: on a single group the selector returns the rationale it started
    from, "No recommendation.", and not a sentence about the assumptions:
    the last branch sets the method only. *)
Theorem recommend_method_single_group_rationale :
  recommend_method (init (NotDataFrame [Fin 1; Fin 2; Fin 3]) None None false)
                   true None
  = Ok ("One-sample T-test", "No recommendation.").
Proof. reflexivity. Qed.

(** C4: with no subject identifier, no pairing and exactly two groups, a
    non-normal sample is sent to Mann-Whitney U for every homogeneity
    verdict. *)
Theorem recommend_method_two_groups_non_normal
    (self : MethodSelector) (h : option bool) :
  id_col self = None ->
  paired self = false ->
  num_groups self = Ok 2 ->
  recommend_method self false h
  = Ok ("Mann-Whitney U", "Normality assumption violated.").
Proof.
  intros Hid Hp Hn. unfold recommend_method.
  rewrite Hid, Hp, Hn. reflexivity.
Qed.

Lemma recommend_method_two_groups_non_normal_witness :
  num_groups (init (IsDataFrame Sample.two_groups) (Some "Group") None false) = Ok 2
  /\ recommend_method (init (IsDataFrame Sample.two_groups) (Some "Group") None false)
                      false (Some false)
     = Ok ("Mann-Whitney U", "Normality assumption violated.").
Proof.
  split; [reflexivity |].
  apply (recommend_method_two_groups_non_normal
           (init (IsDataFrame Sample.two_groups) (Some "Group") None false)
           (Some false));
    reflexivity.
Defined.

(** Whatever Levene's routine does, it is not reached when the selector
    holds no DataFrame or no grouping column. *)
Lemma check_homogeneity_ungrouped
    (levene : list Series -> result (pyfloat * pyfloat))
    (self : MethodSelector) (value_col : string) :
  (exists xs, data self = NotDataFrame xs) \/ group_col self = None ->
  check_homogeneity levene self value_col = Ok null_verdict.
Proof.
  unfold check_homogeneity. intros [[xs Hx] | Hg].
  - rewrite Hx. reflexivity.
  - rewrite Hg. destruct (data self); reflexivity.
Qed.

(** The two guards of [check_homogeneity]: the verdict {Levene_p: None,
    Homogeneity: None} is returned, and nothing is raised, when the data is
    not a DataFrame, when no grouping column was given, and when
    [Series.unique] lists fewer than two entries of the grouping column (a
    missing label is one of its entries).  Levene's routine and the value
    column are arbitrary: neither is consulted. *)
Theorem check_homogeneity_null_verdict
    (levene : list Series -> result (pyfloat * pyfloat))
    (self : MethodSelector) (value_col : string) :
  (exists xs, data self = NotDataFrame xs)
  \/ group_col self = None
  \/ (exists df gc col,
        data self = IsDataFrame df /\ group_col self = Some gc /\
        getitem df gc = Ok col /\ List.length (unique col) < 2) ->
  check_homogeneity levene self value_col = Ok null_verdict.
Proof.
  intros [Hx | [Hg | (df & gc & col & Hd & Hg & Hc & Hlen)]].
  - apply check_homogeneity_ungrouped. now left.
  - apply check_homogeneity_ungrouped. now right.
  - unfold check_homogeneity. rewrite Hd, Hg, Hc. cbn [bind].
    apply Nat.ltb_lt in Hlen. rewrite Hlen. reflexivity.
Qed.

Lemma check_homogeneity_null_verdict_witness :
  (exists df gc col,
      data (init (IsDataFrame Sample.one_group) (Some "Group") None false)
        = IsDataFrame df
      /\ group_col (init (IsDataFrame Sample.one_group) (Some "Group") None false)
         = Some gc
      /\ getitem df gc = Ok col /\ List.length (unique col) < 2)
  /\ check_homogeneity Sample.levene_unreached
       (init (IsDataFrame Sample.one_group) (Some "Group") None false) "RT"
     = Ok null_verdict.
Proof.
  assert (H : exists df gc col,
      data (init (IsDataFrame Sample.one_group) (Some "Group") None false)
        = IsDataFrame df
      /\ group_col (init (IsDataFrame Sample.one_group) (Some "Group") None false)
         = Some gc
      /\ getitem df gc = Ok col /\ List.length (unique col) < 2).
  { exists Sample.one_group, "Group", [CStr "A"; CStr "A"; CStr "A"].
    repeat split; vm_compute; lia. }
  split; [exact H |].
  apply (check_homogeneity_null_verdict Sample.levene_unreached
           (init (IsDataFrame Sample.one_group) (Some "Group") None false) "RT").
  right; right; exact H.
Defined.

(** C9: one group label and a row without label.  There is one distinct
    label, and the selector's own count of line 76 is one group; yet
    [check_homogeneity] does not return the null verdict: its guard counts
    the missing label as a second group, and Levene's routine is run on the
    sample of label A and on an empty sample. *)
Theorem check_homogeneity_missing_label
    (levene : list Series -> result (pyfloat * pyfloat)) :
  num_groups (init (IsDataFrame Sample.one_group_and_missing) (Some "Group") None false)
    = Ok 1
  /\ check_homogeneity levene
       (init (IsDataFrame Sample.one_group_and_missing) (Some "Group") None false)
       "RT"
     = match levene [[CNum (Fin 1); CNum (Fin 3)]; []] with
       | Ok (stat, p) =>
           Ok {| Levene_p := Some p; Homogeneity := Some (gtb p f_0_05) |}
       | Raise e => Raise e
       end
  /\ check_homogeneity levene
       (init (IsDataFrame Sample.one_group_and_missing) (Some "Group") None false)
       "RT"
     <> Ok null_verdict.
Proof.
  split; [reflexivity |].
  assert (Hrun :
    check_homogeneity levene
      (init (IsDataFrame Sample.one_group_and_missing) (Some "Group") None false)
      "RT"
    = match levene [[CNum (Fin 1); CNum (Fin 3)]; []] with
      | Ok (stat, p) =>
          Ok {| Levene_p := Some p; Homogeneity := Some (gtb p f_0_05) |}
      | Raise e => Raise e
      end).
  { cbn. destruct (levene _) as [[stat p] | e]; reflexivity. }
  split; [exact Hrun |].
  rewrite Hrun. destruct (levene _) as [[stat p] | e]; discriminate.
Qed.

(** C10: a selector that holds no DataFrame, or that was built without a
    grouping column, and that has no subject identifier and no pairing,
    counts one group and answers with the one-sample tests, for every
    homogeneity verdict and every content of the data. *)
Theorem recommend_method_ungrouped_is_one_sample
    (self : MethodSelector) (n : bool) (h : option bool) :
  (exists xs, data self = NotDataFrame xs) \/ group_col self = None ->
  id_col self = None ->
  paired self = false ->
  num_groups self = Ok 1
  /\ recommend_method self n h
     = Ok (if n then "One-sample T-test" else "One-sample Wilcoxon",
           "No recommendation.").
Proof.
  intros Hu Hid Hp.
  pose proof (num_groups_ungrouped self Hu) as Hn.
  split; [exact Hn |].
  unfold recommend_method. rewrite Hid, Hp, Hn.
  destruct n; reflexivity.
Qed.

Lemma recommend_method_ungrouped_is_one_sample_witness :
  group_col (init (IsDataFrame Sample.three_groups) None None false) = None
  /\ num_groups (init (IsDataFrame Sample.three_groups) None None false) = Ok 1
  /\ recommend_method (init (IsDataFrame Sample.three_groups) None None false)
                      false (Some false)
     = Ok ("One-sample Wilcoxon", "No recommendation.").
Proof.
  split; [reflexivity |].
  apply (recommend_method_ungrouped_is_one_sample
           (init (IsDataFrame Sample.three_groups) None None false)
           false (Some false)).
  - right. reflexivity.
  - reflexivity.
  - reflexivity.
Defined.

End SelectorFacts.

(* ===================================================================== *)
(** ** The distribution profiler *)
(* ===================================================================== *)

Lemma Qlt_bool_spec (a b : Q) :
  BoolSpec (a < b)%Q (b <= a)%Q (Qlt_bool a b).
Proof.
  unfold Qlt_bool. destruct (Qle_bool b a) eqn:E; cbn; constructor.
  - now apply Qle_bool_iff.
  - apply Qnot_le_lt. intros H. apply Qle_bool_iff in H. congruence.
Qed.

Lemma dropna_present (xs : list pyfloat) :
  EDA.dropna xs = Spec.present_entries xs.
Proof.
  unfold Spec.present_entries.
  induction xs as [| x xs IH]; cbn; [reflexivity |].
  rewrite IH. destruct (isnan x); reflexivity.
Qed.

Lemma dropna_no_nan (xs : list pyfloat) :
  Forall (fun x => isnan x = false) (EDA.dropna xs).
Proof.
  induction xs as [| x xs IH]; cbn; [constructor |].
  destruct (isnan x) eqn:E; [exact IH | constructor; assumption].
Qed.

Lemma dropna_idempotent (xs : list pyfloat) :
  EDA.dropna (EDA.dropna xs) = EDA.dropna xs.
Proof.
  induction xs as [| x xs IH]; cbn; [reflexivity |].
  destruct (isnan x) eqn:E; cbn; [exact IH |].
  rewrite E, IH. reflexivity.
Qed.

(** Infinite entries survive [dropna]. *)
Lemma dropna_keeps_infinities (xs : list pyfloat) (x : pyfloat) :
  In x xs -> isnan x = false -> In x (EDA.dropna xs).
Proof.
  rewrite dropna_present. unfold Spec.present_entries.
  intros Hin Hx. apply filter_In. split; [exact Hin |]. now rewrite Hx.
Qed.

Section ProfilerFacts.

Import EDA.
Context {L : StatsLib}.

Ltac label_cases :=
  repeat match goal with
         | |- context [Qlt_bool ?a ?b] => destruct (Qlt_bool_spec a b)
         end.

Ltac label_close :=
  repeat split; intros;
  repeat match goal with H : _ /\ _ |- _ => destruct H end;
  first [ reflexivity | discriminate | lra | exfalso; lra
        | cbn; tauto ].

(** C5: the labels of [descriptive_stats].  The skewness label is read off
    the skewness alone and the kurtosis label off the kurtosis alone.  On a
    real skewness: Symmetric exactly on [-0.5, 0.5]; the moderate labels
    exactly on (0.5, 1] and [-1, -0.5); the high labels exactly above 1 and
    below -1.  On a real kurtosis: Mesokurtic exactly on [-1, 1],
    Leptokurtic exactly above 1, Platykurtic exactly below -1.  Every
    sample receives one of the five skewness labels and one of the three
    kurtosis labels. *)
Theorem descriptive_stats_labels (self : EDA_Diagnosis) :
  (forall s : Q,
      skew (clean_data self) = Fin s ->
      (Skew_Desc (descriptive_stats self) = "Symmetric"
         <-> (- (1 # 2) <= s /\ s <= 1 # 2)%Q)
      /\ (Skew_Desc (descriptive_stats self) = "Moderately Positively Skewed"
         <-> (1 # 2 < s /\ s <= 1)%Q)
      /\ (Skew_Desc (descriptive_stats self) = "Moderately Negatively Skewed"
         <-> (- (1) <= s /\ s < - (1 # 2))%Q)
      /\ (Skew_Desc (descriptive_stats self) = "Highly Positively Skewed"
         <-> (1 < s)%Q)
      /\ (Skew_Desc (descriptive_stats self) = "Highly Negatively Skewed"
         <-> (s < - (1))%Q))
  /\ (forall k : Q,
        kurtosis (clean_data self) = Fin k ->
        (Kurt_Desc (descriptive_stats self) = "Mesokurtic (Normal-like)"
           <-> (- (1) <= k /\ k <= 1)%Q)
        /\ (Kurt_Desc (descriptive_stats self) = "Leptokurtic (Heavy tails/Peaked)"
           <-> (1 < k)%Q)
        /\ (Kurt_Desc (descriptive_stats self) = "Platykurtic (Light tails/Flat)"
           <-> (k < - (1))%Q))
  /\ In (Skew_Desc (descriptive_stats self))
        ["Symmetric"; "Moderately Positively Skewed";
         "Moderately Negatively Skewed"; "Highly Positively Skewed";
         "Highly Negatively Skewed"]
  /\ In (Kurt_Desc (descriptive_stats self))
        ["Mesokurtic (Normal-like)"; "Leptokurtic (Heavy tails/Peaked)";
         "Platykurtic (Light tails/Flat)"].
Proof.
  unfold descriptive_stats. cbn [Skew_Desc Kurt_Desc].
  split; [| split; [| split]].
  - intros s Hs. rewrite Hs. unfold gtb, ltb, f_1, f_0_5, f_m1, f_m0_5.
    label_cases; label_close.
  - intros k Hk. rewrite Hk. unfold gtb, ltb, f_1, f_m1.
    label_cases; label_close.
  - destruct (skew (clean_data self)) as [| | | s];
      unfold gtb, ltb, f_1, f_0_5, f_m1, f_m0_5; label_cases; cbn; tauto.
  - destruct (kurtosis (clean_data self)) as [| | | k];
      unfold gtb, ltb, f_1, f_m1; label_cases; cbn; tauto.
Qed.

(** C6: when the three tests and the modality check return, the report is
    produced and its Is_Normal_Assumption is [shapiro_p > 0.05]; the
    Lilliefors and Jarque-Bera p-values are copied to the report and enter
    the flag nowhere. *)
Theorem check_distribution_is_normal
    (self : EDA_Diagnosis) (w p : pyfloat) (ks jb : pyfloat * pyfloat)
    (pk : nat * string) :
  shapiro (clean_data self) = Ok (w, p) ->
  lilliefors (clean_data self) = Ok ks ->
  jarque_bera (clean_data self) = Ok jb ->
  check_multimodality self = Ok pk ->
  exists r,
    snd (check_distribution self) = Ok r
    /\ Shapiro_Wilk_p r = p
    /\ Lilliefors_p r = snd ks
    /\ Jarque_Bera_p r = snd jb
    /\ Is_Normal_Assumption r = gtb p f_0_05.
Proof.
  intros Hsh Hks Hjb Hpk. unfold check_distribution.
  rewrite Hsh. cbn [snd]. rewrite Hks, Hjb, Hpk.
  destruct ks as [ks_stat ks_p], jb as [jb_stat jb_p], pk as [num_peaks modality].
  cbn [bind snd]. eexists. split; [reflexivity |]. cbn. repeat split.
Qed.

(** A report that was produced carries the flag of its own Shapiro p-value. *)
Lemma check_distribution_flag (self : EDA_Diagnosis) (r : DistributionReport) :
  snd (check_distribution self) = Ok r ->
  Is_Normal_Assumption r = gtb (Shapiro_Wilk_p r) f_0_05.
Proof.
  unfold check_distribution.
  destruct (shapiro (clean_data self)) as [[w p] | e]; cbn [snd]; [| discriminate].
  destruct (lilliefors (clean_data self)) as [[a b] | e]; cbn [bind]; [| discriminate].
  destruct (jarque_bera (clean_data self)) as [[c d] | e]; cbn [bind]; [| discriminate].
  destruct (check_multimodality self) as [[n m] | e]; cbn [bind]; [| discriminate].
  intros H. injection H as <-. reflexivity.
Qed.

(** [check_multimodality] fails exactly when the estimator fails, with the
    estimator's exception. *)
Lemma check_multimodality_raises (self : EDA_Diagnosis) (e : exn) :
  check_multimodality self = Raise e <-> gaussian_kde (clean_data self) = Raise e.
Proof.
  unfold check_multimodality.
  destruct (gaussian_kde (clean_data self)) as [kde | e']; cbn [bind].
  - split; discriminate.
  - split; intros H; injection H as ->; reflexivity.
Qed.

(** C7, as the code has it: on a degenerate clean sample
    [check_multimodality] runs no check of its own; it fails exactly when
    the density estimator fails, and then with the estimator's own
    exception. *)
Theorem check_multimodality_degenerate
    (self : EDA_Diagnosis) (e : exn) :
  Spec.degenerate (clean_data self) = true ->
  (check_multimodality self = Raise e
   <-> gaussian_kde (clean_data self) = Raise e).
Proof.
  intros _. apply check_multimodality_raises.
Qed.

(** C8, as the code has it: the constructor accepts a Series, an array or a
    list; the clean sample is the input without its NaN entries, in the
    input's order, infinite entries included; every operation reads the
    clean sample and never the raw one. *)
Theorem init_clean_data (d : pyobject) (values : list pyfloat) :
  Spec.values_of d = Some values ->
  exists self,
    init d = Ok self
    /\ data self = values
    /\ clean_data self = Spec.present_entries values
    /\ forall raw : list pyfloat,
         let self' :=
           {| data := raw; name := name self; clean_data := clean_data self |} in
         descriptive_stats self' = descriptive_stats self
         /\ visualize self' = visualize self
         /\ (forall m t, check_outliers self' m t = check_outliers self m t)
         /\ check_multimodality self' = check_multimodality self
         /\ check_distribution self' = check_distribution self.
Proof.
  intros Hv.
  destruct d as [nm vs | vs | vs |]; cbn in Hv; try discriminate;
    injection Hv as ->; cbn [init]; eexists; (split; [reflexivity |]);
    cbn [data clean_data name]; rewrite dropna_present;
    repeat split.
Qed.

End ProfilerFacts.

(* ===================================================================== *)
(** ** The profiler on concrete samples *)
(* ===================================================================== *)

Section ProfilerRuns.

Import EDA.

Example init_constant_input :
  init Sample.constant_input = Ok Sample.constant_profile.
Proof. reflexivity. Qed.

Example init_spread_input :
  init Sample.spread_input = Ok Sample.spread_profile.
Proof. reflexivity. Qed.

Example init_rejects_other :
  Spec.raised_class (init Other) = Some "ValueError".
Proof. reflexivity. Qed.

Example check_outliers_unknown_method :
  Spec.raised_class (check_outliers (L := Sample.lib) Sample.spread_profile "mad" f_3)
  = Some "ValueError".
Proof. reflexivity. Qed.

Example check_multimodality_spread :
  check_multimodality (L := Sample.lib) Sample.spread_profile = Ok (1, "Unimodal").
Proof. vm_compute. reflexivity. Qed.

(** A NaN skewness or kurtosis falls through every comparison. *)
Example descriptive_stats_nan :
  Skew_Desc (descriptive_stats
               (L := Sample.double NaN NaN f_0 f_0 f_0) Sample.spread_profile)
  = "Symmetric"
  /\ Kurt_Desc (descriptive_stats
                  (L := Sample.double NaN NaN f_0 f_0 f_0) Sample.spread_profile)
     = "Mesokurtic (Normal-like)".
Proof. split; reflexivity. Qed.

Lemma descriptive_stats_labels_witness :
  skew (StatsLib := Sample.lib) (clean_data Sample.spread_profile) = Fin (3 # 4)
  /\ kurtosis (StatsLib := Sample.lib) (clean_data Sample.spread_profile) = Fin 2
  /\ Skew_Desc (descriptive_stats (L := Sample.lib) Sample.spread_profile)
     = "Moderately Positively Skewed"
  /\ Kurt_Desc (descriptive_stats (L := Sample.lib) Sample.spread_profile)
     = "Leptokurtic (Heavy tails/Peaked)".
Proof.
  destruct (descriptive_stats_labels (L := Sample.lib) Sample.spread_profile)
    as (Hskew & Hkurt & _ & _).
  destruct (Hskew (3 # 4) eq_refl) as (_ & Hmod & _).
  destruct (Hkurt 2%Q eq_refl) as (_ & Hlepto & _).
  split; [reflexivity |]. split; [reflexivity |].
  split.
  - apply Hmod. split; unfold Qlt, Qle; cbn; lia.
  - apply Hlepto. unfold Qlt; cbn; lia.
Defined.

Lemma check_distribution_is_normal_witness :
  shapiro (StatsLib := Sample.lib) (clean_data Sample.spread_profile)
    = Ok (f_1, Fin (1 # 10))
  /\ exists r,
       snd (check_distribution (L := Sample.lib) Sample.spread_profile) = Ok r
       /\ Shapiro_Wilk_p r = Fin (1 # 10)
       /\ Lilliefors_p r = snd (f_0, Fin (1 # 1000))
       /\ Jarque_Bera_p r = snd (f_0, Fin (1 # 1000))
       /\ Is_Normal_Assumption r = gtb (Fin (1 # 10)) f_0_05.
Proof.
  split; [reflexivity |].
  apply (check_distribution_is_normal (L := Sample.lib) Sample.spread_profile
           f_1 (Fin (1 # 10)) (f_0, Fin (1 # 1000)) (f_0, Fin (1 # 1000))
           (1, "Unimodal")).
  - reflexivity.
  - reflexivity.
  - reflexivity.
  - vm_compute. reflexivity.
Defined.

Lemma check_multimodality_degenerate_witness :
  Spec.degenerate (clean_data Sample.constant_profile) = true
  /\ check_multimodality (L := Sample.lib) Sample.constant_profile
     = Raise (Exception "LinAlgError" "singular data covariance matrix").
Proof.
  split; [reflexivity |].
  apply (proj2 (check_multimodality_degenerate (L := Sample.lib)
                  Sample.constant_profile
                  (Exception "LinAlgError" "singular data covariance matrix")
                  eq_refl)).
  reflexivity.
Defined.

(** On the constant sample 5, 5, 5 the estimator's LinAlgError reaches the
    caller; no DegenerateSample error is raised. *)
Lemma check_multimodality_degenerate_counterexample :
  init Sample.constant_input = Ok Sample.constant_profile
  /\ Spec.degenerate (clean_data Sample.constant_profile) = true
  /\ Spec.raised_class (check_multimodality (L := Sample.lib) Sample.constant_profile)
     = Some "LinAlgError"
  /\ Spec.raised_class (check_multimodality (L := Sample.lib) Sample.constant_profile)
     <> Some "DegenerateSample".
Proof.
  repeat split; try reflexivity. cbn. discriminate.
Qed.

Lemma init_clean_data_witness :
  Spec.values_of Sample.infinite_input = Some [Fin 1; PosInf; NaN; NegInf]
  /\ exists self,
       init Sample.infinite_input = Ok self
       /\ clean_data self = [Fin 1; PosInf; NegInf].
Proof.
  split; [reflexivity |].
  destruct (init_clean_data (L := Sample.lib) Sample.infinite_input
              [Fin 1; PosInf; NaN; NegInf] eq_refl)
    as (self & Hinit & _ & Hclean & _).
  exists self. split; [exact Hinit |].
  rewrite Hclean. reflexivity.
Defined.

(** On the input 1, inf, NaN, -inf the clean sample keeps both infinities:
    it is not the input without its non-finite entries. *)
Lemma init_clean_data_counterexample :
  init Sample.infinite_input
  = Ok {| data := [Fin 1; PosInf; NaN; NegInf];
          name := "Data";
          clean_data := [Fin 1; PosInf; NegInf] |}
  /\ Spec.finite_entries [Fin 1; PosInf; NaN; NegInf] = [Fin 1]
  /\ [Fin 1; PosInf; NegInf] <> Spec.finite_entries [Fin 1; PosInf; NaN; NegInf].
Proof.
  repeat split. cbn. discriminate.
Qed.

End ProfilerRuns.

(* ===================================================================== *)
(** ** Further inputs *)
(* ===================================================================== *)

Module Cases.

(** Two labels, and one row whose label is missing. *)
Definition two_groups_and_missing : DataFrame :=
  [ ("RT", [CNum (Fin 1); CNum (Fin 2); CNum (Fin 3); CNum (Fin 4); CNum NaN]);
    ("Group", [CStr "A"; CStr "B"; CNone; CStr "A"; CStr "B"]) ].

(** Every label is missing. *)
Definition no_labels : DataFrame :=
  [ ("RT", [CNum (Fin 1); CNum (Fin 2)]);
    ("Group", [CNone; CNone]) ].

(** Tests that answer with a fixed statistic and p-value. *)
Definition tests (stat p : pyfloat) : TestLib := {|
  ttest_rel := fun _ _ => Ok (stat, p);
  ttest_ind := fun _ _ _ => Ok (stat, p);
  mannwhitneyu := fun _ _ => Ok (stat, p)
|}.

(** Collaborators whose Shapiro-Wilk test rejects, for a strongly
    right-skewed sample. *)
Definition skewed_lib : StatsLib :=
  Sample.double (Fin 2) (Fin 5) (Fin (1 # 100)) (Fin (1 # 100)) (Fin (1 # 100)).

(** Collaborators whose Shapiro-Wilk test raises. *)
Definition failing_lib : StatsLib := {|
  mean := fun _ => f_0;
  std := fun _ => f_1;
  skew := fun _ => NaN;
  kurtosis := fun _ => NaN;
  series_min := fun xs => hd NaN xs;
  series_max := fun xs => last xs NaN;
  quantile := fun _ _ => NaN;
  fadd := fun x _ => x;
  fsub := fun x _ => x;
  fmul := fun x _ => x;
  fabs := fun x => x;
  zscore := fun xs =>
    match xs with
    | [] => Raise (Exception "AttributeError" "zscore of an empty Series")
    | _ => Ok xs
    end;
  shapiro := fun _ => Raise (ValueError "Data must be at least length 3.");
  lilliefors := fun _ => Ok (f_0, f_0);
  jarque_bera := fun _ => Ok (f_0, f_0);
  gaussian_kde := Sample.kde_double;
  linspace := fun a b n => repeat a n;
  find_peaks := fun _ => [];
  Figure := unit;
  render := fun _ _ => tt
|}.

Definition two_entries : EDA.EDA_Diagnosis :=
  {| EDA.data := [Fin 1; Fin 2];
     EDA.name := "Data";
     EDA.clean_data := [Fin 1; Fin 2] |}.

End Cases.

(* ===================================================================== *)
(** ** Columns, masks and distinct labels *)
(* ===================================================================== *)

Section FrameFacts.

Lemma getitem_mask_rows (df : DataFrame) (mask : list bool) (col : string) :
  getitem (mask_rows df mask) col
  = match getitem df col with
    | Ok s => Ok (select mask s)
    | Raise e => Raise e
    end.
Proof.
  induction df as [| [name s] df IH]; cbn; [reflexivity |].
  destruct (String.eqb name col); [reflexivity | exact IH].
Qed.

(** Indexing fails with a KeyError that names the column, and only so. *)
Lemma getitem_raises (df : DataFrame) (col : string) (e : exn) :
  getitem df col = Raise e -> e = KeyError col.
Proof.
  induction df as [| [name s] df IH]; cbn.
  - intros H. injection H as <-. reflexivity.
  - destruct (String.eqb name col); [discriminate | exact IH].
Qed.

Lemma mapM_ok_map {A B : Type} (f : A -> result B) (g : A -> B) (l : list A) :
  (forall a, In a l -> f a = Ok (g a)) -> mapM f l = Ok (map g l).
Proof.
  induction l as [| a l IH]; intros H; cbn; [reflexivity |].
  rewrite (H a (or_introl eq_refl)). cbn.
  rewrite IH by (intros b Hb; apply H; now right). reflexivity.
Qed.

Lemma mapM_raises_first {A B : Type} (f : A -> result B) (a : A) (l : list A)
    (e : exn) :
  f a = Raise e -> mapM f (a :: l) = Raise e.
Proof. intros H. cbn. rewrite H. reflexivity. Qed.

Lemma Qeq_bool_sym (a b : Q) : Qeq_bool a b = Qeq_bool b a.
Proof.
  destruct (Qeq_bool a b) eqn:E1, (Qeq_bool b a) eqn:E2; try reflexivity.
  - apply Qeq_bool_iff in E1. symmetry in E1. apply Qeq_bool_iff in E1. congruence.
  - apply Qeq_bool_iff in E2. symmetry in E2. apply Qeq_bool_iff in E2. congruence.
Qed.

Lemma Qeq_bool_trans (a b c : Q) :
  Qeq_bool a b = true -> Qeq_bool b c = true -> Qeq_bool a c = true.
Proof.
  intros H1 H2. apply Qeq_bool_iff in H1, H2. apply Qeq_bool_iff.
  now rewrite H1.
Qed.

Lemma same_key_refl (c : cell) : same_key c c = true.
Proof.
  destruct c as [[| | | q] | s |]; cbn; try reflexivity.
  - apply Qeq_bool_iff. reflexivity.
  - apply String.eqb_refl.
Qed.

Lemma same_key_sym (a b : cell) : same_key a b = same_key b a.
Proof.
  destruct a as [[| | | p] | s |], b as [[| | | q] | t |]; cbn; try reflexivity.
  - apply Qeq_bool_sym.
  - apply String.eqb_sym.
Qed.

Lemma same_key_trans (a b c : cell) :
  same_key a b = true -> same_key b c = true -> same_key a c = true.
Proof.
  destruct a as [[| | | p] | s |], b as [[| | | q] | t |], c as [[| | | r] | u |];
    cbn; try congruence.
  - apply Qeq_bool_trans.
  - intros H1 H2. apply String.eqb_eq in H1, H2. apply String.eqb_eq. congruence.
Qed.

(** A missing entry is selected by no mask, and selects nothing. *)
Lemma cell_eq_missing_r (c g : cell) : isna g = true -> cell_eq c g = false.
Proof.
  destruct c as [[| | | p] | s |], g as [[| | | q] | t |]; cbn; congruence.
Qed.

Lemma cell_eq_missing_l (c g : cell) : isna c = true -> cell_eq c g = false.
Proof.
  destruct c as [[| | | p] | s |], g as [[| | | q] | t |]; cbn; congruence.
Qed.

Lemma cell_eq_same_key (c g : cell) :
  isna c = false -> cell_eq c g = same_key c g.
Proof.
  destruct c as [[| | | p] | s |], g as [[| | | q] | t |]; cbn; congruence.
Qed.

Lemma same_key_isna (c g : cell) :
  same_key c g = true -> isna c = isna g.
Proof.
  destruct c as [[| | | p] | s |], g as [[| | | q] | t |]; cbn; congruence.
Qed.

Lemma select_all_false {A : Type} (mask : list bool) (l : list A) :
  Forall (fun b => b = false) mask -> select mask l = [].
Proof.
  intros H. revert l. induction H as [| b mask Hb _ IH]; intros l.
  - destruct l; reflexivity.
  - subst b. destruct l; cbn; [reflexivity | apply IH].
Qed.

Lemma select_length {A : Type} (mask : list bool) (l : list A) :
  List.length (select mask l) <= List.length l.
Proof.
  revert l. induction mask as [| b mask IH]; intros [| a l]; cbn; try lia.
  specialize (IH l). destruct b; cbn; lia.
Qed.

Lemma filter_as_select {A : Type} (f : A -> bool) (l : list A) :
  filter f l = select (map f l) l.
Proof.
  induction l as [| a l IH]; cbn; [reflexivity |].
  rewrite IH. reflexivity.
Qed.

(** The entries of [unique] are entries of the column, and every entry of
    the column has its key among them. *)
Lemma unique_incl (s : Series) (g : cell) : In g (unique s) -> In g s.
Proof.
  revert g. induction s as [| c s IH]; cbn; intros g; [tauto |].
  intros [-> | H]; [now left |].
  apply filter_In in H. right. apply IH, H.
Qed.

Lemma unique_covers (s : Series) (c : cell) :
  In c s -> exists g, In g (unique s) /\ same_key g c = true.
Proof.
  induction s as [| k s IH]; cbn; [tauto |].
  intros [-> | H].
  - exists c. split; [now left | apply same_key_refl].
  - destruct (IH H) as (g & Hg & Hgc).
    destruct (same_key k g) eqn:E.
    + exists k. split; [now left |]. eapply same_key_trans; eassumption.
    + exists g. split; [| exact Hgc]. right. apply filter_In.
      split; [exact Hg | now rewrite E].
Qed.

Lemma filter_none {A : Type} (f : A -> bool) (l : list A) :
  (forall a, In a l -> f a = false) -> filter f l = [].
Proof.
  induction l as [| a l IH]; intros H; cbn; [reflexivity |].
  rewrite (H a (or_introl eq_refl)). apply IH.
  intros b Hb. apply H. now right.
Qed.

(** Each label has exactly one entry of [unique] under its key. *)
Lemma unique_one_key (s : Series) (c : cell) :
  In c s ->
  List.length (filter (fun g => same_key c g) (unique s)) = 1.
Proof.
  induction s as [| k s IH]; cbn [unique In]; [tauto |].
  intros Hin. cbn [filter].
  destruct (same_key c k) eqn:Eck.
  - cbn [List.length]. f_equal.
    rewrite filter_none; [reflexivity |].
    intros g Hg. apply filter_In in Hg. destruct Hg as [_ Hkg].
    destruct (same_key c g) eqn:Ecg; [| reflexivity].
    rewrite same_key_sym in Eck.
    rewrite (same_key_trans k c g Eck Ecg) in Hkg. discriminate.
  - destruct Hin as [-> | Hin]; [rewrite same_key_refl in Eck; discriminate |].
    rewrite <- (IH Hin).
    f_equal. clear IH Hin.
    induction (unique s) as [| g l IHl]; cbn; [reflexivity |].
    destruct (same_key k g) eqn:Ekg; cbn.
    + destruct (same_key c g) eqn:Ecg; [| exact IHl].
      rewrite (same_key_sym k g) in Ekg.
      rewrite (same_key_trans c g k Ecg Ekg) in Eck. discriminate.
    + destruct (same_key c g); cbn; rewrite IHl; reflexivity.
Qed.

End FrameFacts.

Section DistinctLabels.

Lemma filter_swap {A : Type} (f g : A -> bool) (l : list A) :
  filter f (filter g l) = filter g (filter f l).
Proof.
  induction l as [| a l IH]; cbn; [reflexivity |].
  destruct (f a) eqn:Ef, (g a) eqn:Eg; cbn; rewrite ?Ef, ?Eg, IH; reflexivity.
Qed.

Lemma filter_all {A : Type} (f : A -> bool) (l : list A) :
  (forall a, In a l -> f a = true) -> filter f l = l.
Proof.
  induction l as [| a l IH]; intros H; cbn; [reflexivity |].
  rewrite (H a (or_introl eq_refl)). f_equal. apply IH.
  intros b Hb. apply H. now right.
Qed.

Lemma filter_drops {A : Type} (f : A -> bool) (l : list A) (a : A) :
  In a l -> f a = false -> List.length (filter f l) < List.length l.
Proof.
  induction l as [| b l IH]; cbn; [tauto |].
  intros [-> | Hin] Hf.
  - rewrite Hf. pose proof (filter_length_le f l). lia.
  - specialize (IH Hin Hf). destruct (f b); cbn; lia.
Qed.

(** Dropping the missing entries before or after [unique] is the same. *)
Lemma dropna_unique (s : Series) :
  Frame.dropna (unique s) = unique (Frame.dropna s).
Proof.
  unfold Frame.dropna.
  induction s as [| c s IH]; cbn [unique filter]; [reflexivity |].
  destruct (isna c) eqn:Ec; cbn [negb].
  - rewrite filter_swap, IH. apply filter_all.
    intros g Hg. apply unique_incl, filter_In in Hg. destruct Hg as [_ Hg].
    destruct (same_key c g) eqn:E; [| reflexivity].
    apply same_key_isna in E. rewrite Ec in E. rewrite <- E in Hg. discriminate.
  - cbn [unique]. f_equal. rewrite filter_swap, IH. reflexivity.
Qed.

Lemma nunique_le_unique (s : Series) : nunique s <= List.length (unique s).
Proof.
  unfold nunique. rewrite <- dropna_unique. apply filter_length_le.
Qed.

Lemma nunique_no_missing (s : Series) :
  (forall c, In c s -> isna c = false) -> nunique s = List.length (unique s).
Proof.
  intros H. unfold nunique, Frame.dropna. rewrite filter_all; [reflexivity |].
  intros c Hc. now rewrite (H c Hc).
Qed.

Lemma nunique_lt_unique (s : Series) (c : cell) :
  In c s -> isna c = true -> nunique s < List.length (unique s).
Proof.
  intros Hin Hna. unfold nunique. rewrite <- dropna_unique.
  destruct (unique_covers s c Hin) as (g & Hg & Hgc).
  apply (filter_drops _ _ g Hg).
  apply same_key_isna in Hgc. rewrite Hgc, Hna. reflexivity.
Qed.

End DistinctLabels.

(* ===================================================================== *)
(** ** The method selector, branch by branch *)
(* ===================================================================== *)

(** The samples handed to Levene's routine: one per distinct entry of the
    grouping column, in order of first appearance, missing values dropped. *)
Definition levene_samples (keys vals : Series) : list Series :=
  map (fun g => Frame.dropna (select (eq_mask keys g) vals)) (unique keys).

Section SelectorBranches.

Import Selector.

(** X1: pairing without a subject identifier decides alone: Paired T-test
    for a normal sample, Wilcoxon Signed-Rank otherwise.  The data and the
    grouping column are not read, so a grouping column that does not exist
    raises nothing here. *)
Theorem recommend_method_paired
    (self : MethodSelector) (n : bool) (h : option bool) :
  id_col self = None ->
  paired self = true ->
  recommend_method self n h
  = Ok (if n then ("Paired T-test", "Data is Normal and Paired.")
        else ("Wilcoxon Signed-Rank", "Data is Non-Normal and Paired.")).
Proof.
  intros Hid Hp. unfold recommend_method. rewrite Hid, Hp.
  destruct n; reflexivity.
Qed.

Lemma recommend_method_paired_witness :
  num_groups (init (IsDataFrame Sample.two_groups) (Some "Arm") None true)
    = Raise (KeyError "Arm")
  /\ recommend_method (init (IsDataFrame Sample.two_groups) (Some "Arm") None true)
                      false (Some false)
     = Ok ("Wilcoxon Signed-Rank", "Data is Non-Normal and Paired.").
Proof.
  split; [reflexivity |].
  apply (recommend_method_paired
           (init (IsDataFrame Sample.two_groups) (Some "Arm") None true)
           false (Some false));
    reflexivity.
Defined.

(** X2: two independent groups and a normal sample: Welch's T-test when the
    homogeneity verdict is False, Independent T-test when it is True or
    None. *)
Theorem recommend_method_two_groups_normal
    (self : MethodSelector) (h : option bool) :
  id_col self = None ->
  paired self = false ->
  num_groups self = Ok 2 ->
  recommend_method self true h
  = Ok (match h with
        | Some false => ("Welch's T-test", "Normality met, but Variance is unequal.")
        | _ => ("Independent T-test", "Normality and Homogeneity assumptions met.")
        end).
Proof.
  intros Hid Hp Hn. unfold recommend_method. rewrite Hid, Hp, Hn.
  destruct h as [[|]|]; reflexivity.
Qed.

Lemma recommend_method_two_groups_normal_witness :
  recommend_method (init (IsDataFrame Sample.two_groups) (Some "Group") None false)
                   true (Some false)
  = Ok ("Welch's T-test", "Normality met, but Variance is unequal.").
Proof.
  apply (recommend_method_two_groups_normal
           (init (IsDataFrame Sample.two_groups) (Some "Group") None false)
           (Some false));
    reflexivity.
Defined.

(** X3: more than two independent groups: One-way ANOVA for a normal sample
    with a homogeneity verdict of True or None, Welch ANOVA for a normal
    sample with a verdict of False, Kruskal-Wallis for a non-normal sample
    whatever the verdict. *)
Theorem recommend_method_many_groups
    (self : MethodSelector) (n : bool) (h : option bool) (k : nat) :
  id_col self = None ->
  paired self = false ->
  num_groups self = Ok k ->
  2 < k ->
  recommend_method self n h
  = Ok (if n then
          match h with
          | Some false => ("Welch ANOVA", "Normality met, Variance unequal.")
          | _ => ("One-way ANOVA", "Normality and Homogeneity met.")
          end
        else ("Kruskal-Wallis", "Normality violated.")).
Proof.
  intros Hid Hp Hn Hk. unfold recommend_method. rewrite Hid, Hp, Hn. cbn [bind].
  replace (k =? 2) with false by (symmetry; apply Nat.eqb_neq; lia).
  replace (2 <? k) with true by (symmetry; apply Nat.ltb_lt; lia).
  destruct n, h as [[|]|]; reflexivity.
Qed.

Lemma recommend_method_many_groups_witness :
  num_groups (init (IsDataFrame Sample.three_groups) (Some "Group") None false)
    = Ok 3
  /\ recommend_method (init (IsDataFrame Sample.three_groups) (Some "Group") None false)
                      false (Some true)
     = Ok ("Kruskal-Wallis", "Normality violated.").
Proof.
  split; [reflexivity |].
  apply (recommend_method_many_groups
           (init (IsDataFrame Sample.three_groups) (Some "Group") None false)
           false (Some true) 3); try reflexivity.
  lia.
Defined.

(** X4: a grouping column with one distinct label, or with none (an empty
    column, or a column whose labels are all missing), is a single group:
    the one-sample tests are recommended, with the initial rationale. *)
Theorem recommend_method_at_most_one_group
    (self : MethodSelector) (n : bool) (h : option bool) (k : nat) :
  id_col self = None ->
  paired self = false ->
  num_groups self = Ok k ->
  k <= 1 ->
  recommend_method self n h
  = Ok (if n then "One-sample T-test" else "One-sample Wilcoxon",
        "No recommendation.").
Proof.
  intros Hid Hp Hn Hk. unfold recommend_method. rewrite Hid, Hp, Hn. cbn [bind].
  replace (k =? 2) with false by (symmetry; apply Nat.eqb_neq; lia).
  replace (2 <? k) with false by (symmetry; apply Nat.ltb_ge; lia).
  destruct n; reflexivity.
Qed.

Lemma recommend_method_at_most_one_group_witness :
  num_groups (init (IsDataFrame Cases.no_labels) (Some "Group") None false) = Ok 0
  /\ recommend_method (init (IsDataFrame Cases.no_labels) (Some "Group") None false)
                      true (Some false)
     = Ok ("One-sample T-test", "No recommendation.").
Proof.
  split; [reflexivity |].
  apply (recommend_method_at_most_one_group
           (init (IsDataFrame Cases.no_labels) (Some "Group") None false)
           true (Some false) 0); try reflexivity.
  lia.
Defined.

(** X5: on data whose column names are distinct, [recommend_method] raises
    in one situation only: no subject identifier, no pairing, a DataFrame,
    and a non-empty grouping column name that the DataFrame does not have;
    the exception is the KeyError of that name. *)
Theorem recommend_method_raises
    (self : MethodSelector) (n : bool) (h : option bool) (e : exn) :
  (forall df, data self = IsDataFrame df -> NoDup (map fst df)) ->
  (recommend_method self n h = Raise e
   <-> id_col self = None
       /\ paired self = false
       /\ exists df gc,
            data self = IsDataFrame df /\ group_col self = Some gc
            /\ truthy gc = true /\ getitem df gc = Raise e /\ e = KeyError gc).
Proof.
  intros _. split.
  - unfold recommend_method, num_groups.
    destruct (id_col self) as [i |]; [destruct n; discriminate |].
    destruct (paired self); [destruct n; discriminate |].
    destruct (data self) as [df | xs] eqn:Hd, (group_col self) as [gc |] eqn:Hg;
      try (cbn; destruct n; discriminate).
    destruct (truthy gc) eqn:Ht; [| cbn; destruct n; discriminate].
    destruct (getitem df gc) as [col | e'] eqn:Hc; cbn [bind].
    + destruct n, h as [[|]|], (nunique col =? 2), (2 <? nunique col);
        discriminate.
    + intros H. injection H as <-.
      repeat split. exists df, gc. repeat split; try assumption.
      eapply getitem_raises; eassumption.
  - intros (Hid & Hp & df & gc & Hd & Hg & Ht & Hc & _).
    unfold recommend_method, num_groups.
    rewrite Hid, Hp, Hd, Hg, Ht, Hc. reflexivity.
Qed.

Lemma recommend_method_raises_witness :
  NoDup (map fst Sample.two_groups)
  /\ recommend_method (init (IsDataFrame Sample.two_groups) (Some "Arm") None false)
                      true None
     = Raise (KeyError "Arm").
Proof.
  assert (Hnames : NoDup (map fst Sample.two_groups)).
  { cbn. repeat constructor; cbn; intuition discriminate. }
  split; [exact Hnames |].
  apply (proj2 (recommend_method_raises
                  (init (IsDataFrame Sample.two_groups) (Some "Arm") None false)
                  true None (KeyError "Arm")
                  (fun df H => match H in _ = d
                                     return match d with
                                            | IsDataFrame df' => NoDup (map fst df')
                                            | NotDataFrame _ => True
                                            end
                               with eq_refl => Hnames end))).
  split; [reflexivity |]. split; [reflexivity |].
  exists Sample.two_groups, "Arm". repeat split.
Defined.

Lemma recommend_method_closed_set_witness :
  In "Welch ANOVA"
     ["LMM"; "GLMM_or_LMM"; "Paired T-test"; "Wilcoxon Signed-Rank";
      "Independent T-test"; "Welch's T-test"; "Mann-Whitney U";
      "One-way ANOVA"; "Welch ANOVA"; "Kruskal-Wallis";
      "One-sample T-test"; "One-sample Wilcoxon"].
Proof.
  apply (recommend_method_closed_set
           (init (IsDataFrame Sample.three_groups) (Some "Group") None false)
           true (Some false) "Welch ANOVA" "Normality met, Variance unequal.").
  reflexivity.
Defined.

End SelectorBranches.

(* ===================================================================== *)
(** ** The variance check on a grouped DataFrame *)
(* ===================================================================== *)

Section Homogeneity.

Import Selector.

Variable levene : list Series -> result (pyfloat * pyfloat).

Lemma group_sample_ok (df : DataFrame) (gc vc : string) (keys vals : Series)
    (g : cell) :
  getitem df gc = Ok keys ->
  getitem df vc = Ok vals ->
  Inference.group_sample df gc vc g
  = Ok (Frame.dropna (select (eq_mask keys g) vals)).
Proof.
  intros Hk Hv. unfold Inference.group_sample.
  rewrite Hk. cbn [bind]. rewrite getitem_mask_rows, Hv. reflexivity.
Qed.

Lemma group_sample_raises (df : DataFrame) (gc vc : string) (keys : Series)
    (g : cell) (e : exn) :
  getitem df gc = Ok keys ->
  getitem df vc = Raise e ->
  Inference.group_sample df gc vc g = Raise e.
Proof.
  intros Hk Hv. unfold Inference.group_sample.
  rewrite Hk. cbn [bind]. rewrite getitem_mask_rows, Hv. reflexivity.
Qed.

(** With at least two distinct entries the comprehension of line 34 is
    entered. *)
Lemma check_homogeneity_grouped (self : MethodSelector) (value_col : string)
    (df : DataFrame) (gc : string) (keys : Series) :
  data self = IsDataFrame df ->
  group_col self = Some gc ->
  getitem df gc = Ok keys ->
  2 <= List.length (unique keys) ->
  check_homogeneity levene self value_col
  = (group_data <-
       mapM (fun g =>
               vals <- getitem (mask_rows df (eq_mask keys g)) value_col ;;
               Ok (Frame.dropna vals))
            (unique keys) ;;
     ' (stat, p) <- levene group_data ;;
     Ok {| Levene_p := Some p; Homogeneity := Some (gtb p f_0_05) |}).
Proof.
  intros Hd Hg Hk Hlen. unfold check_homogeneity.
  rewrite Hd, Hg, Hk. cbn [bind].
  replace (List.length (unique keys) <? 2) with false
    by (symmetry; apply Nat.ltb_ge; lia).
  reflexivity.
Qed.

(** Past both guards the outcome is Levene's, on [levene_samples]. *)
Lemma check_homogeneity_on_samples
    (self : MethodSelector) (value_col : string)
    (df : DataFrame) (gc : string) (keys vals : Series) :
  data self = IsDataFrame df ->
  group_col self = Some gc ->
  getitem df gc = Ok keys ->
  getitem df value_col = Ok vals ->
  2 <= List.length (unique keys) ->
  check_homogeneity levene self value_col
  = match levene (levene_samples keys vals) with
    | Ok (stat, p) =>
        Ok {| Levene_p := Some p; Homogeneity := Some (gtb p f_0_05) |}
    | Raise e => Raise e
    end.
Proof.
  intros Hd Hg Hk Hv Hlen.
  rewrite (check_homogeneity_grouped self value_col df gc keys Hd Hg Hk Hlen).
  rewrite (mapM_ok_map _
             (fun g => Frame.dropna (select (eq_mask keys g) vals))).
  - cbn [bind]. fold (levene_samples keys vals).
    destruct (levene (levene_samples keys vals)) as [[stat p] | e]; reflexivity.
  - intros g _. rewrite getitem_mask_rows, Hv. reflexivity.
Qed.

(** X7: on a DataFrame whose grouping column has at least two distinct
    entries and whose value column exists, [check_homogeneity] hands
    Levene's routine one sample per distinct entry, in order of first
    appearance, each without its missing values, and turns the p-value into
    the verdict {Levene_p: p, Homogeneity: p > 0.05}. *)
Theorem check_homogeneity_runs_levene
    (self : MethodSelector) (value_col : string)
    (df : DataFrame) (gc : string) (keys vals : Series) :
  data self = IsDataFrame df ->
  group_col self = Some gc ->
  getitem df gc = Ok keys ->
  getitem df value_col = Ok vals ->
  2 <= List.length (unique keys) ->
  check_homogeneity levene self value_col
  = match levene (levene_samples keys vals) with
    | Ok (stat, p) =>
        Ok {| Levene_p := Some p; Homogeneity := Some (gtb p f_0_05) |}
    | Raise e => Raise e
    end.
Proof. apply check_homogeneity_on_samples. Qed.

(** X8: on a DataFrame with distinct column names and a grouping column
    name, [check_homogeneity] raises exactly in three situations: the grouping column does not exist;
    it has at least two distinct entries and the value column does not
    exist; both exist and Levene's routine raises.  The exception is the
    one of the failing step. *)
Theorem check_homogeneity_raises
    (self : MethodSelector) (value_col : string)
    (df : DataFrame) (gc : string) (e : exn) :
  NoDup (map fst df) ->
  data self = IsDataFrame df ->
  group_col self = Some gc ->
  (check_homogeneity levene self value_col = Raise e
   <-> getitem df gc = Raise e
       \/ exists keys,
            getitem df gc = Ok keys /\ 2 <= List.length (unique keys)
            /\ (getitem df value_col = Raise e
                \/ exists vals,
                     getitem df value_col = Ok vals
                     /\ levene (levene_samples keys vals) = Raise e)).
Proof.
  intros _ Hd Hg.
  destruct (getitem df gc) as [keys | e0] eqn:Hk.
  - destruct (Nat.ltb_spec (List.length (unique keys)) 2) as [Hlt | Hge].
    + assert (Hnull : check_homogeneity levene self value_col = Ok null_verdict).
      { unfold check_homogeneity. rewrite Hd, Hg, Hk. cbn [bind].
        apply Nat.ltb_lt in Hlt. rewrite Hlt. reflexivity. }
      rewrite Hnull. split; [discriminate |].
      intros [H | (keys' & Hk' & Hlen & _)]; [discriminate |].
      injection Hk' as <-. lia.
    + destruct (getitem df value_col) as [vals | e1] eqn:Hv.
      * rewrite (check_homogeneity_on_samples self value_col df gc keys vals
                   Hd Hg Hk Hv Hge).
        split.
        -- destruct (levene (levene_samples keys vals)) as [[stat p] | e2] eqn:Hl;
             [discriminate |].
           intros H. injection H as <-. right. exists keys.
           repeat split; try assumption. right. exists vals. now split.
        -- intros [H | (keys' & Hk' & _ & [H | (vals' & Hv' & Hl)])];
             try discriminate.
           injection Hk' as <-. injection Hv' as <-. rewrite Hl. reflexivity.
      * rewrite (check_homogeneity_grouped self value_col df gc keys Hd Hg Hk Hge).
        destruct (unique keys) as [| g groups] eqn:Hu; [cbn in Hge; lia |].
        rewrite (mapM_raises_first _ g groups e1)
          by (rewrite getitem_mask_rows, Hv; reflexivity).
        cbn [bind]. split.
        -- intros H. injection H as <-. right. exists keys.
           repeat split; try assumption. rewrite Hu. exact Hge. now left.
        -- intros [H | (keys' & Hk' & _ & [H | (vals' & Hv' & _)])];
             try discriminate.
           injection H as <-. reflexivity.
  - assert (Hr : check_homogeneity levene self value_col = Raise e0).
    { unfold check_homogeneity. rewrite Hd, Hg, Hk. reflexivity. }
    rewrite Hr. split.
    + intros H. left. injection H as <-. reflexivity.
    + intros [H | (keys' & Hk' & _)]; [| discriminate].
      injection H as <-. reflexivity.
Qed.

End Homogeneity.

Section GroupedRuns.

Import Selector.

Lemma check_homogeneity_runs_levene_witness :
  check_homogeneity (Sample.levene_const NaN)
    (init (IsDataFrame Cases.two_groups_and_missing) (Some "Group") None false) "RT"
  = Ok {| Levene_p := Some NaN; Homogeneity := Some false |}.
Proof.
  rewrite (check_homogeneity_runs_levene (Sample.levene_const NaN)
             (init (IsDataFrame Cases.two_groups_and_missing) (Some "Group") None false)
             "RT" Cases.two_groups_and_missing "Group"
             [CStr "A"; CStr "B"; CNone; CStr "A"; CStr "B"]
             [CNum (Fin 1); CNum (Fin 2); CNum (Fin 3); CNum (Fin 4); CNum NaN]
             eq_refl eq_refl eq_refl eq_refl ltac:(vm_compute; lia)).
  reflexivity.
Defined.

Lemma check_homogeneity_raises_witness :
  check_homogeneity Sample.levene_unreached
    (init (IsDataFrame Sample.two_groups) (Some "Group") None false) "Score"
  = Raise (KeyError "Score").
Proof.
  apply (proj2 (check_homogeneity_raises Sample.levene_unreached
                  (init (IsDataFrame Sample.two_groups) (Some "Group") None false)
                  "Score" Sample.two_groups "Group" (KeyError "Score")
                  ltac:(cbn; repeat constructor; cbn; intuition discriminate)
                  eq_refl eq_refl)).
  right.
  exists [CStr "Control"; CStr "Control"; CStr "Treatment"; CStr "Treatment"].
  split; [reflexivity |]. split; [vm_compute; lia |].
  left. reflexivity.
Defined.

(** X9: a row whose group label is missing is compared equal to no label,
    the missing one included: when the grouping column has such a row,
    Levene's routine is handed an empty sample for it. *)
Theorem levene_samples_missing_label (keys vals : Series) (c : cell) :
  In c keys ->
  isna c = true ->
  In [] (levene_samples keys vals).
Proof.
  intros Hin Hna.
  destruct (unique_covers keys c Hin) as (g & Hg & Hgc).
  apply same_key_isna in Hgc. rewrite Hna in Hgc.
  unfold levene_samples. apply in_map_iff. exists g. split; [| exact Hg].
  rewrite select_all_false; [reflexivity |].
  unfold eq_mask. apply Forall_forall. intros b Hb.
  apply in_map_iff in Hb. destruct Hb as (k & <- & _).
  now apply cell_eq_missing_r.
Qed.

Lemma levene_samples_missing_label_witness :
  In [] (levene_samples
           [CStr "A"; CStr "B"; CNone; CStr "A"; CStr "B"]
           [CNum (Fin 1); CNum (Fin 2); CNum (Fin 3); CNum (Fin 4); CNum NaN]).
Proof.
  apply (levene_samples_missing_label
           [CStr "A"; CStr "B"; CNone; CStr "A"; CStr "B"]
           [CNum (Fin 1); CNum (Fin 2); CNum (Fin 3); CNum (Fin 4); CNum NaN]
           CNone).
  - cbn. tauto.
  - reflexivity.
Defined.

(** X10: every row with a label belongs to the sample of exactly one
    distinct entry of the grouping column, and a row without a label to
    none: the masks [column == g] never overlap and lose no labelled row. *)
Theorem row_in_one_group (keys : Series) (c : cell) :
  In c keys ->
  List.length (filter (fun g => cell_eq c g) (unique keys))
  = if isna c then 0 else 1.
Proof.
  intros Hin. destruct (isna c) eqn:Hna.
  - rewrite filter_none; [reflexivity |].
    intros g _. now apply cell_eq_missing_l.
  - rewrite (filter_ext (fun g => cell_eq c g) (fun g => same_key c g)).
    + now apply unique_one_key.
    + intros g. now apply cell_eq_same_key.
Qed.

Lemma row_in_one_group_witness :
  List.length
    (filter (fun g => cell_eq (CStr "B") g)
            (unique [CStr "A"; CStr "B"; CNone; CStr "A"; CStr "B"]))
  = 1.
Proof.
  apply (row_in_one_group [CStr "A"; CStr "B"; CNone; CStr "A"; CStr "B"]
           (CStr "B")).
  cbn. tauto.
Defined.

(** X11: the two group counts of the selector disagree on a missing label.
    With one real label and a row without label, [recommend_method] counts
    one group, while [check_homogeneity] counts two and does not return the
    null verdict: it runs Levene's routine. *)
Theorem group_counts_disagree_on_missing
    (levene : list Series -> result (pyfloat * pyfloat))
    (self : MethodSelector) (value_col : string)
    (df : DataFrame) (gc : string) (keys vals : Series) (c : cell) :
  data self = IsDataFrame df ->
  group_col self = Some gc ->
  truthy gc = true ->
  getitem df gc = Ok keys ->
  getitem df value_col = Ok vals ->
  nunique keys = 1 ->
  In c keys ->
  isna c = true ->
  num_groups self = Ok 1
  /\ check_homogeneity levene self value_col <> Ok null_verdict.
Proof.
  intros Hd Hg Ht Hk Hv Hn Hin Hna. split.
  - unfold num_groups. rewrite Hd, Hg, Ht, Hk. cbn [bind]. now rewrite Hn.
  - pose proof (nunique_lt_unique keys c Hin Hna) as Hlt.
    rewrite (check_homogeneity_on_samples levene self value_col df gc keys vals
               Hd Hg Hk Hv) by lia.
    destruct (levene (levene_samples keys vals)) as [[stat p] | e]; discriminate.
Qed.

Lemma group_counts_disagree_on_missing_witness :
  num_groups (init (IsDataFrame Sample.one_group_and_missing) (Some "Group") None false)
    = Ok 1
  /\ check_homogeneity (Sample.levene_const (Fin (1 # 2)))
       (init (IsDataFrame Sample.one_group_and_missing) (Some "Group") None false)
       "RT"
     <> Ok null_verdict.
Proof.
  apply (group_counts_disagree_on_missing (Sample.levene_const (Fin (1 # 2)))
           (init (IsDataFrame Sample.one_group_and_missing) (Some "Group") None false)
           "RT" Sample.one_group_and_missing "Group"
           [CStr "A"; CNone; CStr "A"]
           [CNum (Fin 1); CNum (Fin 2); CNum (Fin 3)] CNone);
    try reflexivity.
  cbn. tauto.
Defined.

End GroupedRuns.

(* ===================================================================== *)
(** ** Running the two-sample tests *)
(* ===================================================================== *)

Section InferenceFacts.

Context {T : TestLib}.

Lemma unique_head_distinct (keys : Series) (a b : cell) (rest : Series) :
  unique keys = a :: b :: rest -> same_key a b = false.
Proof.
  destruct keys as [| k s]; cbn [unique]; [discriminate |].
  intros H. injection H as -> H.
  assert (Hb : In b (filter (fun d => negb (same_key a d)) (unique s)))
    by (rewrite H; now left).
  apply filter_In in Hb. destruct Hb as [_ Hb].
  now apply negb_true_iff in Hb.
Qed.

Lemma cell_eq_both (c a b : cell) :
  cell_eq c a = true -> cell_eq c b = true -> same_key a b = true.
Proof.
  intros Ha Hb.
  assert (Hna : isna c = false).
  { destruct (isna c) eqn:E; [| reflexivity].
    rewrite (cell_eq_missing_l c a E) in Ha. discriminate. }
  rewrite (cell_eq_same_key c a Hna) in Ha.
  rewrite (cell_eq_same_key c b Hna) in Hb.
  rewrite same_key_sym in Ha. eapply same_key_trans; eassumption.
Qed.

Lemma select_disjoint_length {A : Type} (f g : cell -> bool)
    (keys : Series) (vals : list A) :
  (forall c, f c = true -> g c = true -> False) ->
  List.length (select (map f keys) vals) + List.length (select (map g keys) vals)
  <= List.length keys.
Proof.
  intros Hfg. revert vals.
  induction keys as [| k keys IH]; intros [| v vals]; cbn; try lia.
  specialize (IH vals).
  destruct (f k) eqn:Ef, (g k) eqn:Eg; cbn; try lia.
  exfalso. eapply Hfg; eassumption.
Qed.

(** With two distinct entries the tests are reached. *)
Lemma run_ttest_on_samples (self : Inference.Inference)
    (value_col group_col : string) (paired equal_var : bool)
    (keys vals : Series) (a b : cell) :
  getitem (Inference.data self) group_col = Ok keys ->
  unique keys = [a; b] ->
  getitem (Inference.data self) value_col = Ok vals ->
  Inference.run_ttest self value_col group_col paired equal_var
  = match
      (if paired then
         ttest_rel (Frame.dropna (select (eq_mask keys a) vals))
                   (Frame.dropna (select (eq_mask keys b) vals))
       else
         ttest_ind (Frame.dropna (select (eq_mask keys a) vals))
                   (Frame.dropna (select (eq_mask keys b) vals)) equal_var)
    with
    | Ok (stat, p) =>
        Ok {| Inference.Test :=
                if paired then "Paired T-test"
                else if equal_var then "Independent T-test"
                else "Welch's T-test";
              Inference.Statistic := stat;
              Inference.p_value := p;
              Inference.dof :=
                (Z.of_nat (List.length
                             (Frame.dropna (select (eq_mask keys a) vals)))
                 + Z.of_nat (List.length
                               (Frame.dropna (select (eq_mask keys b) vals)))
                 - 2)%Z |}
    | Raise e => Raise e
    end.
Proof.
  intros Hk Hu Hv. unfold Inference.run_ttest.
  rewrite Hk. cbn [bind]. rewrite Hu. cbn [List.length Nat.eqb negb].
  rewrite (group_sample_ok _ _ _ keys vals a Hk Hv),
          (group_sample_ok _ _ _ keys vals b Hk Hv).
  cbn [bind].
  destruct paired.
  - destruct (ttest_rel _ _) as [[stat p] | e]; reflexivity.
  - destruct (ttest_ind _ _ _) as [[stat p] | e]; reflexivity.
Qed.

Lemma run_ttest_group_check (self : Inference.Inference)
    (value_col group_col : string) (paired equal_var : bool) (keys : Series) :
  getitem (Inference.data self) group_col = Ok keys ->
  List.length (unique keys) <> 2 ->
  Inference.run_ttest self value_col group_col paired equal_var
  = Raise (ValueError "T-test requires exactly 2 groups.").
Proof.
  intros Hk Hlen. unfold Inference.run_ttest. rewrite Hk. cbn [bind].
  apply Nat.eqb_neq in Hlen. rewrite Hlen. reflexivity.
Qed.

Lemma run_mann_whitney_group_check (self : Inference.Inference)
    (value_col group_col : string) (keys : Series) :
  getitem (Inference.data self) group_col = Ok keys ->
  List.length (unique keys) <> 2 ->
  Inference.run_mann_whitney self value_col group_col
  = Raise (ValueError "Mann-Whitney requires 2 groups.").
Proof.
  intros Hk Hlen. unfold Inference.run_mann_whitney. rewrite Hk. cbn [bind].
  apply Nat.eqb_neq in Hlen. rewrite Hlen. reflexivity.
Qed.

(** X12: both two-sample runners refuse a grouping column that does not
    have exactly two distinct entries, a missing label counting as an
    entry: they raise their ValueError before the value column is read and
    before any test is run. *)
Theorem two_sample_runners_reject
    (self : Inference.Inference) (value_col group_col : string)
    (paired equal_var : bool) (keys : Series) :
  getitem (Inference.data self) group_col = Ok keys ->
  List.length (unique keys) <> 2 ->
  Inference.run_ttest self value_col group_col paired equal_var
    = Raise (ValueError "T-test requires exactly 2 groups.")
  /\ Inference.run_mann_whitney self value_col group_col
     = Raise (ValueError "Mann-Whitney requires 2 groups.").
Proof.
  intros Hk Hlen. split.
  - now apply (run_ttest_group_check self value_col group_col paired equal_var keys).
  - now apply (run_mann_whitney_group_check self value_col group_col keys).
Qed.

(** X13: with exactly two distinct entries [a] then [b] in the grouping
    column, [run_ttest] tests the sample of [a] against the sample of [b]
    (rows of that label, missing values dropped).  Pairing selects the
    related-samples test and the name Paired T-test, whatever [equal_var]
    is; otherwise [equal_var] selects between Independent T-test and Welch's
    T-test.  The reported dof is the two sample sizes minus 2; a test that
    raises is propagated. *)
Theorem run_ttest_returns (self : Inference.Inference)
    (value_col group_col : string) (paired equal_var : bool)
    (keys vals : Series) (a b : cell) :
  getitem (Inference.data self) group_col = Ok keys ->
  unique keys = [a; b] ->
  getitem (Inference.data self) value_col = Ok vals ->
  Inference.run_ttest self value_col group_col paired equal_var
  = match
      (if paired then
         ttest_rel (Frame.dropna (select (eq_mask keys a) vals))
                   (Frame.dropna (select (eq_mask keys b) vals))
       else
         ttest_ind (Frame.dropna (select (eq_mask keys a) vals))
                   (Frame.dropna (select (eq_mask keys b) vals)) equal_var)
    with
    | Ok (stat, p) =>
        Ok {| Inference.Test :=
                if paired then "Paired T-test"
                else if equal_var then "Independent T-test"
                else "Welch's T-test";
              Inference.Statistic := stat;
              Inference.p_value := p;
              Inference.dof :=
                (Z.of_nat (List.length
                             (Frame.dropna (select (eq_mask keys a) vals)))
                 + Z.of_nat (List.length
                               (Frame.dropna (select (eq_mask keys b) vals)))
                 - 2)%Z |}
    | Raise e => Raise e
    end.
Proof. apply run_ttest_on_samples. Qed.

(** X14: the dof that [run_ttest] reports lies between -2 and the number
    of rows minus 2: the two samples share no row. *)
Theorem run_ttest_dof_bounds (self : Inference.Inference)
    (value_col group_col : string) (paired equal_var : bool)
    (keys vals : Series) (r : Inference.TTestResult) :
  getitem (Inference.data self) group_col = Ok keys ->
  getitem (Inference.data self) value_col = Ok vals ->
  Inference.run_ttest self value_col group_col paired equal_var = Ok r ->
  (-2 <= Inference.dof r <= Z.of_nat (List.length keys) - 2)%Z.
Proof.
  intros Hk Hv Hr.
  destruct (Nat.eq_dec (List.length (unique keys)) 2) as [Hlen | Hlen].
  - destruct (unique keys) as [| a [| b [| c rest]]] eqn:Hu; try discriminate.
    rewrite (run_ttest_on_samples self value_col group_col paired equal_var
               keys vals a b Hk Hu Hv) in Hr.
    pose proof (unique_head_distinct keys a b [] Hu) as Hab.
    pose proof (select_disjoint_length
                  (fun c => cell_eq c a) (fun c => cell_eq c b) keys vals) as Hsum.
    unfold eq_mask in Hr.
    pose proof (filter_length_le (fun c => negb (isna c))
                  (select (map (fun c => cell_eq c a) keys) vals)) as Ha.
    pose proof (filter_length_le (fun c => negb (isna c))
                  (select (map (fun c => cell_eq c b) keys) vals)) as Hb.
    assert (Hdis : forall c, cell_eq c a = true -> cell_eq c b = true -> False).
    { intros c Hca Hcb. rewrite (cell_eq_both c a b Hca Hcb) in Hab. discriminate. }
    specialize (Hsum Hdis).
    unfold Frame.dropna in Hr.
    destruct (if paired then _ else _) as [[stat p] | e]; [| discriminate].
    injection Hr as <-. cbn [Inference.dof]. lia.
  - rewrite (run_ttest_group_check self value_col group_col paired equal_var
               keys Hk Hlen) in Hr. discriminate.
Qed.

End InferenceFacts.

(* ===================================================================== *)
(** ** From the recommendation to the test *)
(* ===================================================================== *)

(** The name [run_ttest] gives an unpaired test. *)
Definition ttest_name (equal_var : bool) : string :=
  if equal_var then "Independent T-test" else "Welch's T-test".

Section Pipeline.

Import Selector.
Context {T : TestLib}.

Lemma run_mann_whitney_on_samples (self : Inference.Inference)
    (value_col group_col : string) (keys vals : Series) (a b : cell) :
  getitem (Inference.data self) group_col = Ok keys ->
  unique keys = [a; b] ->
  getitem (Inference.data self) value_col = Ok vals ->
  Inference.run_mann_whitney self value_col group_col
  = match mannwhitneyu (Frame.dropna (select (eq_mask keys a) vals))
                       (Frame.dropna (select (eq_mask keys b) vals)) with
    | Ok (stat, p) =>
        Ok {| Inference.RTest := "Mann-Whitney U";
              Inference.RStatistic := stat;
              Inference.Rp_value := p |}
    | Raise e => Raise e
    end.
Proof.
  intros Hk Hu Hv. unfold Inference.run_mann_whitney.
  rewrite Hk. cbn [bind]. rewrite Hu. cbn [List.length Nat.eqb negb].
  rewrite (group_sample_ok _ _ _ keys vals a Hk Hv),
          (group_sample_ok _ _ _ keys vals b Hk Hv).
  cbn [bind].
  destruct (mannwhitneyu _ _) as [[stat p] | e]; reflexivity.
Qed.

Lemma num_groups_frame (sel : MethodSelector) (df : DataFrame) (gc : string)
    (keys : Series) :
  data sel = IsDataFrame df ->
  group_col sel = Some gc ->
  truthy gc = true ->
  getitem df gc = Ok keys ->
  num_groups sel = Ok (nunique keys).
Proof.
  intros Hd Hg Ht Hk. unfold num_groups. rewrite Hd, Hg, Ht, Hk. reflexivity.
Qed.

(** X15: when no group label is missing and the selector counts two
    groups, the runners accept the same DataFrame.  For a normal sample the
    selector's method is the name [run_ttest] reports under the matching
    [equal_var]; for a non-normal one it is the name [run_mann_whitney]
    reports.  A runner fails only with the exception of its scipy test. *)
Theorem recommendation_runs
    (sel : MethodSelector) (inf : Inference.Inference)
    (df : DataFrame) (gc value_col : string) (keys vals : Series) :
  data sel = IsDataFrame df ->
  group_col sel = Some gc ->
  truthy gc = true ->
  id_col sel = None ->
  paired sel = false ->
  Inference.data inf = df ->
  getitem df gc = Ok keys ->
  getitem df value_col = Ok vals ->
  (forall c, In c keys -> isna c = false) ->
  nunique keys = 2 ->
  exists a b,
    unique keys = [a; b]
    /\ (forall hv : bool,
          (exists advice,
              recommend_method sel true (Some hv) = Ok (ttest_name hv, advice))
          /\ match Inference.run_ttest inf value_col gc false hv with
             | Ok r => Inference.Test r = ttest_name hv
             | Raise e =>
                 ttest_ind (Frame.dropna (select (eq_mask keys a) vals))
                           (Frame.dropna (select (eq_mask keys b) vals)) hv
                 = Raise e
             end)
    /\ (forall h : option bool,
          (exists advice,
              recommend_method sel false h = Ok ("Mann-Whitney U", advice))
          /\ match Inference.run_mann_whitney inf value_col gc with
             | Ok r => Inference.RTest r = "Mann-Whitney U"
             | Raise e =>
                 mannwhitneyu (Frame.dropna (select (eq_mask keys a) vals))
                              (Frame.dropna (select (eq_mask keys b) vals))
                 = Raise e
             end).
Proof.
  intros Hd Hg Ht Hid Hp Hinf Hk Hv Hna Hn.
  pose proof (num_groups_frame sel df gc keys Hd Hg Ht Hk) as Hng.
  rewrite Hn in Hng.
  rewrite (nunique_no_missing keys Hna) in Hn.
  destruct (unique keys) as [| a [| b [| c rest]]] eqn:Hu; try discriminate.
  subst df. exists a, b. split; [reflexivity |]. split.
  - intros hv. split.
    + unfold recommend_method. rewrite Hid, Hp, Hng.
      destruct hv; eexists; reflexivity.
    + rewrite (run_ttest_on_samples inf value_col gc false hv keys vals a b
                 Hk Hu Hv).
      destruct (ttest_ind _ _ hv) as [[stat p] | e]; reflexivity.
  - intros h. split.
    + unfold recommend_method. rewrite Hid, Hp, Hng.
      destruct h as [[|]|]; eexists; reflexivity.
    + rewrite (run_mann_whitney_on_samples inf value_col gc keys vals a b
                 Hk Hu Hv).
      destruct (mannwhitneyu _ _) as [[stat p] | e]; reflexivity.
Qed.

(** X16: a missing group label breaks the hand-over.  With two real labels
    and a row without label the selector counts two groups and recommends a
    two-sample test, and both runners refuse the same DataFrame with their
    ValueError, because they count the missing label as a third group. *)
Theorem recommendation_rejected_on_missing_label
    (sel : MethodSelector) (inf : Inference.Inference)
    (df : DataFrame) (gc value_col : string) (keys : Series) (c : cell)
    (pair equal_var : bool) :
  data sel = IsDataFrame df ->
  group_col sel = Some gc ->
  truthy gc = true ->
  id_col sel = None ->
  paired sel = false ->
  Inference.data inf = df ->
  getitem df gc = Ok keys ->
  nunique keys = 2 ->
  In c keys ->
  isna c = true ->
  recommend_method sel true (Some true)
    = Ok ("Independent T-test", "Normality and Homogeneity assumptions met.")
  /\ recommend_method sel false (Some true)
     = Ok ("Mann-Whitney U", "Normality assumption violated.")
  /\ Inference.run_ttest inf value_col gc pair equal_var
     = Raise (ValueError "T-test requires exactly 2 groups.")
  /\ Inference.run_mann_whitney inf value_col gc
     = Raise (ValueError "Mann-Whitney requires 2 groups.").
Proof.
  intros Hd Hg Ht Hid Hp Hinf Hk Hn Hin Hna.
  pose proof (num_groups_frame sel df gc keys Hd Hg Ht Hk) as Hng.
  rewrite Hn in Hng.
  pose proof (nunique_lt_unique keys c Hin Hna) as Hlt.
  subst df.
  repeat split.
  - unfold recommend_method. rewrite Hid, Hp, Hng. reflexivity.
  - unfold recommend_method. rewrite Hid, Hp, Hng. reflexivity.
  - apply (run_ttest_group_check inf value_col gc pair equal_var keys Hk). lia.
  - apply (run_mann_whitney_group_check inf value_col gc keys Hk). lia.
Qed.

End Pipeline.

Section PipelineRuns.

Import Selector.

Lemma two_sample_runners_reject_witness :
  Inference.run_ttest (T := Cases.tests f_1 f_0)
    {| Inference.data := Sample.three_groups |} "RT" "Group" false true
    = Raise (ValueError "T-test requires exactly 2 groups.")
  /\ Inference.run_mann_whitney (T := Cases.tests f_1 f_0)
       {| Inference.data := Sample.three_groups |} "RT" "Group"
     = Raise (ValueError "Mann-Whitney requires 2 groups.").
Proof.
  apply (two_sample_runners_reject (T := Cases.tests f_1 f_0)
           {| Inference.data := Sample.three_groups |} "RT" "Group" false true
           [CStr "A"; CStr "B"; CStr "C"]).
  - reflexivity.
  - vm_compute. lia.
Defined.

Lemma run_ttest_returns_witness :
  Inference.run_ttest (T := Cases.tests f_1 (Fin (1 # 100)))
    {| Inference.data := Sample.two_groups |} "RT" "Group" false false
  = Ok {| Inference.Test := "Welch's T-test";
          Inference.Statistic := f_1;
          Inference.p_value := Fin (1 # 100);
          Inference.dof := 2 |}.
Proof.
  rewrite (run_ttest_returns (T := Cases.tests f_1 (Fin (1 # 100)))
             {| Inference.data := Sample.two_groups |} "RT" "Group" false false
             [CStr "Control"; CStr "Control"; CStr "Treatment"; CStr "Treatment"]
             [CNum (Fin 300); CNum (Fin 310); CNum (Fin 320); CNum (Fin 335)]
             (CStr "Control") (CStr "Treatment") eq_refl eq_refl eq_refl).
  reflexivity.
Defined.

Lemma run_ttest_dof_bounds_witness :
  (-2 <= Inference.dof
           {| Inference.Test := "Paired T-test";
              Inference.Statistic := f_1;
              Inference.p_value := Fin (1 # 100);
              Inference.dof := 2 |}
   <= Z.of_nat (List.length
                  [CStr "Control"; CStr "Control"; CStr "Treatment"; CStr "Treatment"])
      - 2)%Z.
Proof.
  apply (run_ttest_dof_bounds (T := Cases.tests f_1 (Fin (1 # 100)))
           {| Inference.data := Sample.two_groups |} "RT" "Group" true true
           [CStr "Control"; CStr "Control"; CStr "Treatment"; CStr "Treatment"]
           [CNum (Fin 300); CNum (Fin 310); CNum (Fin 320); CNum (Fin 335)]);
    reflexivity.
Defined.

Lemma recommendation_runs_witness :
  exists advice,
    recommend_method (init (IsDataFrame Sample.two_groups) (Some "Group") None false)
                     true (Some false)
    = Ok ("Welch's T-test", advice).
Proof.
  destruct (recommendation_runs (T := Cases.tests f_1 (Fin (1 # 100)))
              (init (IsDataFrame Sample.two_groups) (Some "Group") None false)
              {| Inference.data := Sample.two_groups |}
              Sample.two_groups "Group" "RT"
              [CStr "Control"; CStr "Control"; CStr "Treatment"; CStr "Treatment"]
              [CNum (Fin 300); CNum (Fin 310); CNum (Fin 320); CNum (Fin 335)]
              eq_refl eq_refl eq_refl eq_refl eq_refl eq_refl eq_refl eq_refl)
    as (a & b & _ & Ht & _).
  - intros c Hc. cbn in Hc.
    destruct Hc as [<- | [<- | [<- | [<- | []]]]]; reflexivity.
  - reflexivity.
  - exact (proj1 (Ht false)).
Defined.

Lemma recommendation_rejected_on_missing_label_witness :
  recommend_method
    (init (IsDataFrame Cases.two_groups_and_missing) (Some "Group") None false)
    true (Some true)
    = Ok ("Independent T-test", "Normality and Homogeneity assumptions met.")
  /\ Inference.run_ttest (T := Cases.tests f_1 f_0)
       {| Inference.data := Cases.two_groups_and_missing |} "RT" "Group" false true
     = Raise (ValueError "T-test requires exactly 2 groups.").
Proof.
  destruct (recommendation_rejected_on_missing_label (T := Cases.tests f_1 f_0)
              (init (IsDataFrame Cases.two_groups_and_missing) (Some "Group") None false)
              {| Inference.data := Cases.two_groups_and_missing |}
              Cases.two_groups_and_missing "Group" "RT"
              [CStr "A"; CStr "B"; CNone; CStr "A"; CStr "B"] CNone false true
              eq_refl eq_refl eq_refl eq_refl eq_refl eq_refl eq_refl eq_refl)
    as (H1 & _ & H3 & _).
  - cbn. tauto.
  - reflexivity.
  - split; assumption.
Defined.

End PipelineRuns.

(* ===================================================================== *)
(** ** The profiler: construction, outliers, modality *)
(* ===================================================================== *)

Lemma dropna_length (xs : list pyfloat) :
  List.length xs = List.length (EDA.dropna xs) + List.length (filter isnan xs).
Proof.
  induction xs as [| x xs IH]; cbn; [reflexivity |].
  destruct (isnan x); cbn; lia.
Qed.

Section ProfilerEdges.

Import EDA.
Context {L : StatsLib}.

(** X17: the constructor keeps the raw sequence, removes exactly the NaN
    entries (the length difference is their number), leaves no NaN in the
    clean sample, and never leaves the name empty: a Series without a name
    or with an empty name, an array and a list are all called "Data". *)
Theorem init_accounting (d : pyobject) (values : list pyfloat) :
  Spec.values_of d = Some values ->
  exists self,
    init d = Ok self
    /\ data self = values
    /\ List.length (data self)
       = List.length (clean_data self) + List.length (filter isnan values)
    /\ Forall (fun x => isnan x = false) (clean_data self)
    /\ truthy (name self) = true.
Proof.
  intros Hv.
  destruct d as [nm vs | vs | vs |]; cbn in Hv; try discriminate;
    injection Hv as ->; cbn [init]; eexists; (split; [reflexivity |]);
    cbn [data clean_data name];
    (split; [reflexivity |]);
    (split; [apply dropna_length |]);
    (split; [apply dropna_no_nan |]);
    try reflexivity.
  destruct nm as [s |]; [| reflexivity].
  destruct (truthy s) eqn:E; [exact E | reflexivity].
Qed.

(** X18: [check_outliers] accepts the two method names and nothing else.
    Under iqr it returns a subsequence of the clean sample and never
    raises.  Under zscore it returns the entries whose absolute z-score
    exceeds 3 when scipy's zscore returns, raises what zscore raises when it
    does not, and never reads the threshold argument.  Any other name
    raises the ValueError. *)
Theorem check_outliers_outcome (self : EDA_Diagnosis) (method : string)
    (threshold : pyfloat) :
  (method = "iqr" ->
   exists mask, check_outliers self method threshold
                = Ok (select mask (clean_data self)))
  /\ (method = "zscore" ->
      match zscore (clean_data self) with
      | Ok zs =>
          check_outliers self method threshold
          = Ok (select (map (fun z => gtb (fabs z) f_3) zs) (clean_data self))
      | Raise e => check_outliers self method threshold = Raise e
      end)
  /\ (method <> "iqr" -> method <> "zscore" ->
      check_outliers self method threshold
      = Raise (ValueError "Method must be 'iqr' or 'zscore'"))
  /\ (forall other : pyfloat,
        check_outliers self "zscore" threshold
        = check_outliers self "zscore" other).
Proof.
  repeat split.
  - intros ->. unfold check_outliers. cbn [String.eqb Ascii.eqb Bool.eqb].
    eexists. rewrite filter_as_select. reflexivity.
  - intros ->. unfold check_outliers. cbn [String.eqb Ascii.eqb Bool.eqb].
    destruct (zscore (clean_data self)) as [zs | e]; cbn [bind];
      [| reflexivity].
    rewrite map_map. reflexivity.
  - intros H1 H2. unfold check_outliers.
    apply String.eqb_neq in H1, H2. rewrite H1, H2. reflexivity.
Qed.

(** X19: what [check_multimodality] returns is the number of peaks that
    [find_peaks] reports on the density over the 1000-point grid from the
    minimum to the maximum, labelled Unimodal for no peak or one, Bimodal
    for exactly two, Multimodal for more. *)
Theorem check_multimodality_labels (self : EDA_Diagnosis) (n : nat) (m : string) :
  check_multimodality self = Ok (n, m) ->
  (exists kde,
      gaussian_kde (clean_data self) = Ok kde
      /\ n = List.length
               (find_peaks
                  (kde (linspace (series_min (clean_data self))
                                 (series_max (clean_data self)) 1000))))
  /\ (m = "Unimodal" <-> n <= 1)
  /\ (m = "Bimodal" <-> n = 2)
  /\ (m = "Multimodal" <-> 2 < n).
Proof.
  unfold check_multimodality.
  destruct (gaussian_kde (clean_data self)) as [kde | e]; cbn [bind];
    [| discriminate].
  intros H. injection H as <- <-.
  split; [exists kde; split; reflexivity |].
  set (k := List.length _).
  destruct (Nat.eqb_spec k 2) as [E2 | E2].
  - repeat split; intros; try discriminate; try reflexivity; lia.
  - destruct (Nat.ltb_spec 2 k) as [Hlt | Hge];
      repeat split; intros; try discriminate; try reflexivity; lia.
Qed.

(** X20: [descriptive_stats] on a skewness or kurtosis that is not a real
    number.  NaN fails every comparison and is labelled Symmetric,
    respectively Mesokurtic; the infinities take the outermost labels. *)
Theorem descriptive_stats_non_real (self : EDA_Diagnosis) :
  (skew (clean_data self) = NaN ->
   Skew_Desc (descriptive_stats self) = "Symmetric")
  /\ (skew (clean_data self) = PosInf ->
      Skew_Desc (descriptive_stats self) = "Highly Positively Skewed")
  /\ (skew (clean_data self) = NegInf ->
      Skew_Desc (descriptive_stats self) = "Highly Negatively Skewed")
  /\ (kurtosis (clean_data self) = NaN ->
      Kurt_Desc (descriptive_stats self) = "Mesokurtic (Normal-like)")
  /\ (kurtosis (clean_data self) = PosInf ->
      Kurt_Desc (descriptive_stats self) = "Leptokurtic (Heavy tails/Peaked)")
  /\ (kurtosis (clean_data self) = NegInf ->
      Kurt_Desc (descriptive_stats self) = "Platykurtic (Light tails/Flat)").
Proof.
  unfold descriptive_stats. cbn [Skew_Desc Kurt_Desc].
  repeat split; intros ->; reflexivity.
Qed.

End ProfilerEdges.

(* ===================================================================== *)
(** ** The profiler: the normality report *)
(* ===================================================================== *)

(** The warning of [check_distribution]. *)
Definition shapiro_warning : string :=
  "Sample size > 5000, Shapiro-Wilk might be too sensitive.".

Section Report.

Import EDA.
Context {L : StatsLib}.

(** What a produced report is made of. *)
Lemma check_distribution_inv (self : EDA_Diagnosis) (r : DistributionReport) :
  snd (check_distribution self) = Ok r ->
  exists w p ks jb,
    shapiro (clean_data self) = Ok (w, p)
    /\ lilliefors (clean_data self) = Ok ks
    /\ jarque_bera (clean_data self) = Ok jb
    /\ check_multimodality self = Ok (Num_Peaks r, Modality r)
    /\ Shapiro_Wilk_p r = p
    /\ Is_Normal_Assumption r = gtb p f_0_05
    /\ Advice r =
         if negb (gtb p f_0_05) then
           "Data is NOT Normal. "
           ++ (if negb (String.eqb (Modality r) "Unimodal") then
                 "Data appears " ++ Modality r ++ " ("
                 ++ str_of_nat (Num_Peaks r)
                 ++ " peaks). Consider mixture models or splitting data. "
               else "")
           ++ (if gtb (skew (clean_data self)) f_1 then
                 if gtb (series_min (clean_data self)) f_0 then
                   "Positive Skew: Consider Log or Box-Cox Transform."
                 else
                   "Positive Skew: Consider Square Root (if >=0) or Non-parametric tests."
               else if ltb (skew (clean_data self)) f_m1 then
                 "Negative Skew: Consider Reflect & Log or Non-parametric tests."
               else "Consider Non-parametric tests.")
         else "Data appears Normal. Proceed with Parametric Tests.".
Proof.
  unfold check_distribution.
  destruct (shapiro (clean_data self)) as [[w p] | e]; cbn [snd]; [| discriminate].
  destruct (lilliefors (clean_data self)) as [[a b] | e]; cbn [bind]; [| discriminate].
  destruct (jarque_bera (clean_data self)) as [[c d] | e]; cbn [bind]; [| discriminate].
  destruct (check_multimodality self) as [[n m] | e]; cbn [bind]; [| discriminate].
  intros H. injection H as <-.
  exists w, p, (a, b), (c, d). cbn. repeat split.
Qed.

(** X21: [check_distribution] fails exactly when one of its steps fails,
    with the exception of the first that does, in the order Shapiro-Wilk,
    Lilliefors, Jarque-Bera, density estimation. *)
Theorem check_distribution_raises (self : EDA_Diagnosis) (e : exn) :
  snd (check_distribution self) = Raise e
  <-> shapiro (clean_data self) = Raise e
      \/ (exists sw, shapiro (clean_data self) = Ok sw)
         /\ (lilliefors (clean_data self) = Raise e
             \/ (exists ks, lilliefors (clean_data self) = Ok ks)
                /\ (jarque_bera (clean_data self) = Raise e
                    \/ (exists jb, jarque_bera (clean_data self) = Ok jb)
                       /\ gaussian_kde (clean_data self) = Raise e)).
Proof.
  unfold check_distribution.
  destruct (shapiro (clean_data self)) as [[w p] | e1]; cbn [snd].
  - destruct (lilliefors (clean_data self)) as [[a b] | e2]; cbn [bind].
    + destruct (jarque_bera (clean_data self)) as [[c d] | e3]; cbn [bind].
      * pose proof (check_multimodality_raises self e) as Hm.
        destruct (check_multimodality self) as [[n m] | e4]; cbn [bind].
        -- split; [discriminate |].
           intros [H | (_ & [H | (_ & [H | (_ & H)])])]; try discriminate.
           apply Hm in H. discriminate.
        -- split.
           ++ intros H. injection H as ->. right. split; [eauto |].
              right. split; [eauto |]. right. split; [eauto |].
              now apply Hm.
           ++ intros [H | (_ & [H | (_ & [H | (_ & H)])])]; try discriminate.
              apply Hm in H. injection H as ->. reflexivity.
      * split.
        -- intros H. injection H as ->. right. split; [eauto |].
           right. split; [eauto |]. now left.
        -- intros [H | (_ & [H | (_ & [H | ((jb & H) & _)])])];
             try discriminate.
           injection H as ->. reflexivity.
    + split.
      * intros H. injection H as ->. right. split; [eauto |]. now left.
      * intros [H | (_ & [H | ((ks & H) & _)])]; try discriminate.
        injection H as ->. reflexivity.
  - split.
    + intros H. injection H as ->. now left.
    + intros [H | ((sw & H) & _)]; try discriminate.
      injection H as ->. reflexivity.
Qed.

(** X22: [check_distribution] issues its large-sample warning exactly when
    Shapiro-Wilk returned and the clean sample has 5000 entries or more,
    5000 included although the message says "> 5000"; a step that raises
    afterwards does not take it back. *)
Theorem check_distribution_warns (self : EDA_Diagnosis) :
  In shapiro_warning (fst (check_distribution self))
  <-> (exists sw, shapiro (clean_data self) = Ok sw)
      /\ 5000 <= List.length (clean_data self).
Proof.
  unfold check_distribution.
  destruct (shapiro (clean_data self)) as [[w p] | e]; cbn [fst].
  - destruct (Nat.ltb_spec (List.length (clean_data self)) 5000) as [Hlt | Hge].
    + split; [intros [] | intros [_ Hle]; lia].
    + split; [intros _; split; [eexists; reflexivity | exact Hge]
             | intros _; now left].
  - split; [intros [] | intros [[sw Hsw] _]; discriminate].
Qed.

(** X23: the advice is the sentence "Data appears Normal. Proceed with
    Parametric Tests." exactly when the report's flag is true; modality and
    skewness, also a Bimodal or Multimodal verdict, leave no trace in it. *)
Theorem check_distribution_normal_advice
    (self : EDA_Diagnosis) (r : DistributionReport) :
  snd (check_distribution self) = Ok r ->
  (Is_Normal_Assumption r = true
   <-> Advice r = "Data appears Normal. Proceed with Parametric Tests.").
Proof.
  intros H.
  destruct (check_distribution_inv self r H)
    as (w & p & ks & jb & _ & _ & _ & _ & _ & Hn & Ha).
  rewrite Hn, Ha. destruct (gtb p f_0_05); cbn [negb].
  - split; reflexivity.
  - split; [discriminate |]. cbn. discriminate.
Qed.

End Report.

Section Advice.

Import EDA.
Context {L : StatsLib}.

Ltac order_cases :=
  repeat match goal with
         | |- context [Qlt_bool ?a ?b] => destruct (Qlt_bool_spec a b)
         end.

(** The two outer skewness labels, by the comparisons that give them. *)
Lemma skew_label_high_positive (self : EDA_Diagnosis) :
  Skew_Desc (descriptive_stats self) = "Highly Positively Skewed"
  <-> gtb (skew (clean_data self)) f_1 = true.
Proof.
  unfold descriptive_stats. cbn [Skew_Desc].
  destruct (skew (clean_data self)) as [| | | q];
    unfold gtb, ltb, f_1, f_0_5, f_m1, f_m0_5;
    try (split; intros; first [discriminate | reflexivity]).
  order_cases; split; intros; first [discriminate | reflexivity].
Qed.

Lemma skew_label_high_negative (self : EDA_Diagnosis) :
  Skew_Desc (descriptive_stats self) = "Highly Negatively Skewed"
  <-> gtb (skew (clean_data self)) f_1 = false
      /\ ltb (skew (clean_data self)) f_m1 = true.
Proof.
  unfold descriptive_stats. cbn [Skew_Desc].
  destruct (skew (clean_data self)) as [| | | q];
    unfold gtb, ltb, f_1, f_0_5, f_m1, f_m0_5;
    try (split; [intros Hlab | intros [Hgt Hlt]];
         first [discriminate | now split]).
  order_cases;
    (split; [intros Hlab | intros [Hgt Hlt]]);
    first [discriminate | now split | reflexivity | exfalso; lra].
Qed.

(** X24: the advice of a report whose flag is false.  It opens with "Data
    is NOT Normal. "; a sentence on modality follows exactly when the
    modality is not Unimodal; it closes with one suggestion, chosen as
    [descriptive_stats] labels the skewness: a Positive Skew suggestion
    exactly for Highly Positively Skewed (Log or Box-Cox only with a
    positive minimum), the Negative Skew suggestion exactly for Highly
    Negatively Skewed, and otherwise the plain non-parametric one. *)
Theorem check_distribution_non_normal_advice
    (self : EDA_Diagnosis) (r : DistributionReport) :
  snd (check_distribution self) = Ok r ->
  Is_Normal_Assumption r = false ->
  exists mod_part skew_part,
    Advice r = "Data is NOT Normal. " ++ mod_part ++ skew_part
    /\ (mod_part = "" <-> Modality r = "Unimodal")
    /\ (Skew_Desc (descriptive_stats self) = "Highly Positively Skewed"
        <-> skew_part = "Positive Skew: Consider Log or Box-Cox Transform."
            \/ skew_part
               = "Positive Skew: Consider Square Root (if >=0) or Non-parametric tests.")
    /\ (skew_part = "Positive Skew: Consider Log or Box-Cox Transform."
        -> gtb (series_min (clean_data self)) f_0 = true)
    /\ (Skew_Desc (descriptive_stats self) = "Highly Negatively Skewed"
        <-> skew_part
            = "Negative Skew: Consider Reflect & Log or Non-parametric tests.")
    /\ (skew_part = "Consider Non-parametric tests."
        <-> Skew_Desc (descriptive_stats self) <> "Highly Positively Skewed"
            /\ Skew_Desc (descriptive_stats self) <> "Highly Negatively Skewed").
Proof.
  intros H Hflag.
  destruct (check_distribution_inv self r H)
    as (w & p & ks & jb & _ & _ & _ & _ & _ & Hn & Ha).
  rewrite Hn in Hflag. rewrite Hflag in Ha. cbn [negb] in Ha.
  pose proof (skew_label_high_positive self) as Hpos.
  pose proof (skew_label_high_negative self) as Hneg.
  set (label := Skew_Desc (descriptive_stats self)) in *.
  eexists. eexists. split; [exact Ha |]. split.
  - destruct (String.eqb_spec (Modality r) "Unimodal") as [E | E]; cbn [negb].
    + split; [intros _; exact E | reflexivity].
    + split; [cbn; discriminate | intros E'; contradiction].
  - clear Ha.
    destruct (gtb (skew (clean_data self)) f_1),
             (gtb (series_min (clean_data self)) f_0),
             (ltb (skew (clean_data self)) f_m1);
      intuition (try discriminate; try congruence).
Qed.

End Advice.

Section ReportRuns.

Import EDA.

Example warning_at_5000 :
  In shapiro_warning
     (fst (check_distribution (L := Sample.lib)
             {| data := repeat f_1 5000; name := "Data";
                clean_data := repeat f_1 5000 |}))
  /\ Spec.raised_class
       (snd (check_distribution (L := Sample.lib)
               {| data := repeat f_1 5000; name := "Data";
                  clean_data := repeat f_1 5000 |}))
     = Some "LinAlgError".
Proof. split; vm_compute; [now left | reflexivity]. Qed.

Example shapiro_failure_reported :
  check_distribution (L := Cases.failing_lib) Cases.two_entries
  = ([], Raise (ValueError "Data must be at least length 3.")).
Proof. reflexivity. Qed.

Lemma init_accounting_witness :
  exists self,
    init Sample.infinite_input = Ok self
    /\ List.length (data self) = List.length (clean_data self) + 1
    /\ name self = "Data".
Proof.
  destruct (init_accounting Sample.infinite_input
              [Fin 1; PosInf; NaN; NegInf] eq_refl)
    as (self & Hinit & _ & Hlen & _ & _).
  exists self. split; [exact Hinit |]. split; [exact Hlen |].
  cbn in Hinit. injection Hinit as <-. reflexivity.
Defined.

Lemma check_multimodality_labels_witness :
  check_multimodality (L := Sample.lib) Sample.spread_profile = Ok (1, "Unimodal")
  /\ ("Unimodal" = "Unimodal" <-> 1 <= 1).
Proof.
  split; [vm_compute; reflexivity |].
  apply (check_multimodality_labels (L := Sample.lib) Sample.spread_profile
           1 "Unimodal").
  vm_compute. reflexivity.
Defined.

Lemma check_distribution_normal_advice_witness :
  Is_Normal_Assumption
    {| Shapiro_Wilk_p := Fin (1 # 10);
       Lilliefors_p := Fin (1 # 1000);
       Jarque_Bera_p := Fin (1 # 1000);
       Is_Normal_Assumption := true;
       Modality := "Unimodal";
       Num_Peaks := 1;
       Advice := "Data appears Normal. Proceed with Parametric Tests." |}
  = true.
Proof.
  apply (proj2 (check_distribution_normal_advice (L := Sample.lib)
                  Sample.spread_profile _ ltac:(vm_compute; reflexivity))).
  reflexivity.
Defined.

Lemma check_distribution_non_normal_advice_witness :
  exists r,
    snd (check_distribution (L := Cases.skewed_lib) Sample.spread_profile) = Ok r
    /\ Advice r
       = "Data is NOT Normal. Positive Skew: Consider Log or Box-Cox Transform."
    /\ Skew_Desc (descriptive_stats (L := Cases.skewed_lib) Sample.spread_profile)
       = "Highly Positively Skewed".
Proof.
  eexists. split; [vm_compute; reflexivity |].
  split; [reflexivity |].
  destruct (check_distribution_non_normal_advice (L := Cases.skewed_lib)
              Sample.spread_profile _
              ltac:(vm_compute; reflexivity) eq_refl)
    as (mod_part & skew_part & _ & _ & _ & _ & _ & _).
  reflexivity.
Defined.

End ReportRuns.
